(** * FCx vs C benchmark runner: a shallow embedding of [run_benchmarks.py]

    The development follows the layout of the script:
    - Python values and exceptions ([result], the [M] monad over a log of
      operating-system interactions);
    - the arithmetic the script performs on [float]s, as an interface with
      two instances: IEEE binary64 (what CPython computes) and exact
      rationals (the arithmetic without rounding);
    - [BenchmarkResult] and its derived properties;
    - [BenchmarkRunner]: [compile_fcx], [compile_c], [run_binary],
      [run_benchmark], [run_all] and the category table of [print_summary];
    - the properties of the measurement-and-aggregation engine. *)

From Stdlib Require Import List ZArith Bool Lia String Ascii Permutation.
From Stdlib Require Import Floats QArith Qcanon.
From Stdlib Require Import Sorted RelationClasses.
From Stdlib Require OrdersEx.
Import ListNotations.


Local Open Scope string_scope.
Local Open Scope list_scope.
Local Open Scope Z_scope.

(* ================================================================== *)
(** * Python exceptions and results *)

(** The exception classes that occur in the script.  [subprocess.run] raises
    [TimeoutExpired] when the [timeout] fires, [FileNotFoundError] when the
    executable is missing, and other [OSError]s (a [PermissionError] for a
    file that is not executable, an [ENOEXEC] for a malformed binary):
    [OtherOSError] stands for every [OSError] that is not a
    [FileNotFoundError]. *)
Inductive exn : Type :=
| TimeoutExpired
| FileNotFoundError
| OtherOSError
| KeyError (key : string)
| ValueError
| StatisticsError
| ZeroDivisionError.

(** [isinstance(e, OSError)]: [FileNotFoundError] is a subclass of [OSError],
    [subprocess.TimeoutExpired] is not. *)
Definition is_TimeoutExpired (e : exn) : bool :=
  match e with TimeoutExpired => true | _ => false end.
Definition is_FileNotFoundError (e : exn) : bool :=
  match e with FileNotFoundError => true | _ => false end.
Definition is_OSError (e : exn) : bool :=
  match e with FileNotFoundError | OtherOSError => true | _ => false end.

Inductive result (A : Type) : Type :=
| Ok (a : A)
| Raise (e : exn).
Arguments Ok {A} a.
Arguments Raise {A} e.

Definition rbind {A B} (r : result A) (k : A -> result B) : result B :=
  match r with
  | Ok a => k a
  | Raise e => Raise e
  end.

Declare Scope result_scope.
Delimit Scope result_scope with res.
Notation "x <~ e ;; k" := (rbind e (fun x => k))
  (at level 61, e at next level, right associativity) : result_scope.

(* ================================================================== *)
(** * Float arithmetic *)

(** The operations the script applies to timing values.  [fcompare] is the
    IEEE comparison behind [<] and [>]; [fdiv] is the quotient [/] returns
    for a non-zero divisor; [fmean] is [statistics.mean] on a non-empty
    list; [int_truediv] is [/] on two [int]s. *)
Class PyFloat (F : Type) : Type := {
  fzero : F;
  fcompare : F -> F -> float_comparison;
  fmul : F -> F -> F;
  fdiv : F -> F -> F;
  fmean : list F -> F;
  int_truediv : Z -> Z -> F;
  fcompare_zero : fcompare fzero fzero = FEq
}.

Section PyOps.
Context {F : Type} `{PyFloat F}.

(** [x > y] and [x < y]. *)
Definition py_gt (x y : F) : bool :=
  match fcompare x y with FGt => true | _ => false end.
Definition py_lt (x y : F) : bool :=
  match fcompare x y with FLt => true | _ => false end.

(** [x / y] on floats raises [ZeroDivisionError] for a zero divisor. *)
Definition py_truediv (x y : F) : result F :=
  match fcompare y fzero with
  | FEq => Raise ZeroDivisionError
  | _ => Ok (fdiv x y)
  end.

(** [min(xs)]: raises [ValueError] on an empty sequence, otherwise keeps
    the first item and replaces it by each later item that is [<] it. *)
Definition py_min (xs : list F) : result F :=
  match xs with
  | [] => Raise ValueError
  | x :: rest =>
      Ok (fold_left (fun best item => if py_lt item best then item else best)
            rest x)
  end.

(** [statistics.mean(xs)]: raises [StatisticsError] on an empty sequence. *)
Definition py_mean (xs : list F) : result F :=
  match xs with
  | [] => Raise StatisticsError
  | _ :: _ => Ok (fmean xs)
  end.

(** Truth value of a list: [if xs] holds for a non-empty list. *)
Definition truthy {A} (xs : list A) : bool :=
  match xs with [] => false | _ :: _ => true end.
End PyOps.

(** ** IEEE binary64: the floats of CPython *)

Module Binary64.

(** The quotient [a / b * 2^e] of two integers ([0 < b]) rounded to the
    nearest binary64 value, ties to even. *)
Definition round_quotient (a b e : Z) : float :=
  match a with
  | Z0 => PrimFloat.zero
  | _ =>
      let '(mz, ez, lz) := SFdiv_core_binary prec emax (Z.abs a) e b 0 in
      SF2Prim (binary_round_aux prec emax (a <? 0) mz ez lz)
  end.

(** A finite float as an integer multiple of [2^-1074]. *)
Definition dyadic (x : float) : option Z :=
  match Prim2SF x with
  | S754_zero _ => Some 0
  | S754_finite s m e => Some (cond_Zopp s (Z.shiftl (Zpos m) (e + 1074)))
  | S754_infinity _ | S754_nan => None
  end.

Fixpoint exact_sum (xs : list float) : option Z :=
  match xs with
  | [] => Some 0
  | x :: rest =>
      match dyadic x, exact_sum rest with
      | Some a, Some b => Some (a + b)
      | _, _ => None
      end
  end.

(** What [statistics._sum] keeps when the data is not all finite: the
    float sum of the infinities and NaNs. *)
Definition nonfinite_sum (xs : list float) : float :=
  fold_left (fun acc x =>
               match dyadic x with
               | Some _ => acc
               | None => PrimFloat.add acc x
               end) xs PrimFloat.zero.

(** [statistics.mean]: the exact rational mean, rounded once. *)
Definition mean (xs : list float) : float :=
  let n := Z.of_nat (List.length xs) in
  match exact_sum xs with
  | Some total => round_quotient total n (-1074)
  | None => PrimFloat.div (nonfinite_sum xs) (round_quotient n 1 0)
  end.

#[global] Instance binary64 : PyFloat float := {
  fzero := PrimFloat.zero;
  fcompare := PrimFloat.compare;
  fmul := PrimFloat.mul;
  fdiv := PrimFloat.div;
  fmean := mean;
  int_truediv := fun a b =>
    if b <? 0 then round_quotient (- a) (- b) 0 else round_quotient a b 0;
  fcompare_zero := eq_refl
}.

End Binary64.

(** ** Exact rationals: the same arithmetic without rounding *)

Module Exact.

Definition compare (x y : Qc) : float_comparison :=
  match Qccompare x y with
  | Eq => FEq
  | Lt => FLt
  | Gt => FGt
  end.

Definition of_Z (z : Z) : Qc := Q2Qc (inject_Z z).

Definition sum (xs : list Qc) : Qc := fold_right Qcplus (Q2Qc 0) xs.

Definition mean (xs : list Qc) : Qc :=
  Qcdiv (sum xs) (of_Z (Z.of_nat (List.length xs))).

#[global] Instance rational : PyFloat Qc := {
  fzero := Q2Qc 0;
  fcompare := compare;
  fmul := Qcmult;
  fdiv := Qcdiv;
  fmean := mean;
  int_truediv := fun a b => Qcdiv (of_Z a) (of_Z b);
  fcompare_zero := eq_refl
}.

End Exact.

(** The algebra of an arithmetic without rounding, as far as the ratio of
    two minimums needs it. *)
Class ExactArith (F : Type) `{PyFloat F} : Prop := {
  fmul_zero : forall k, fmul k fzero = fzero;
  fmul_gt_zero : forall k x,
    py_gt k fzero = true -> py_gt (fmul k x) fzero = py_gt x fzero;
  fmul_lt : forall k x y,
    py_gt k fzero = true -> py_lt (fmul k x) (fmul k y) = py_lt x y;
  fmul_div : forall k x y, fdiv (fmul k x) y = fmul k (fdiv x y);
  fdiv_zero : forall x, fdiv fzero x = fzero;
  fmean_single : forall x, fmean [x] = x
}.
Arguments ExactArith F {_}.

(* ================================================================== *)
(** * BenchmarkResult *)

Section BenchmarkResult.
Context {F : Type} `{PyFloat F}.
Local Open Scope result_scope.

Record BenchmarkResult : Type := {
  name : string;
  category : string;
  opt_level : string;
  fcx_times : list F;
  c_times : list F;
  fcx_compiled : bool;
  c_compiled : bool
}.

Definition fcx_avg (self : BenchmarkResult) : result F :=
  if truthy (fcx_times self) then py_mean (fcx_times self) else Ok fzero.

Definition c_avg (self : BenchmarkResult) : result F :=
  if truthy (c_times self) then py_mean (c_times self) else Ok fzero.

Definition fcx_min (self : BenchmarkResult) : result F :=
  if truthy (fcx_times self) then py_min (fcx_times self) else Ok fzero.

Definition c_min (self : BenchmarkResult) : result F :=
  if truthy (c_times self) then py_min (c_times self) else Ok fzero.

(** [if self.c_min > 0 and self.fcx_min > 0: return self.fcx_min / self.c_min]
    and [return 0.0] otherwise; [and] evaluates its right operand only
    when the left one holds. *)
Definition ratio (self : BenchmarkResult) : result F :=
  cm <~ c_min self ;;
  cond <~ (if py_gt cm fzero
           then fm <~ fcx_min self ;; Ok (py_gt fm fzero)
           else Ok false) ;;
  if cond
  then fm <~ fcx_min self ;; cm' <~ c_min self ;; py_truediv fm cm'
  else Ok fzero.

End BenchmarkResult.

Arguments BenchmarkResult F : clear implicits.

(* ================================================================== *)
(** * Strings and paths *)

(** [str.lower] on the ASCII letters. *)
Definition lower_ascii (ch : ascii) : ascii :=
  let n := nat_of_ascii ch in
  if (Nat.leb 65 n && Nat.leb n 90)%bool then ascii_of_nat (n + 32) else ch.

Fixpoint lower (s : string) : string :=
  match s with
  | EmptyString => EmptyString
  | String ch rest => String (lower_ascii ch) (lower rest)
  end.

Definition is_space (ch : ascii) : bool :=
  let n := nat_of_ascii ch in
  (Nat.eqb n 32 || (Nat.leb 9 n && Nat.leb n 13)
   || (Nat.leb 28 n && Nat.leb n 31))%bool.

(** [str.split()] with no separator: the maximal runs of characters that
    are not ASCII whitespace; [word] is the run read so far. *)
Fixpoint split_from (s word : string) : list string :=
  match s with
  | EmptyString => if String.eqb word "" then [] else [word]
  | String ch rest =>
      if is_space ch
      then (if String.eqb word "" then split_from rest ""
            else word :: split_from rest "")
      else split_from rest (word ++ String ch "")
  end.

Definition split (s : string) : list string := split_from s "".

(** A [pathlib.Path], absolute: the list of its components. *)
Definition Path : Type := list string.

Definition path_join (p : Path) (component : string) : Path := p ++ [component].
Definition parent (p : Path) : Path := removelast p.
Definition path_str (p : Path) : string := "/" ++ String.concat "/" p.
Arguments path_str : simpl never.

Declare Scope path_scope.
Delimit Scope path_scope with path.
Notation "p // s" := (path_join p s) (at level 40, left associativity) : path_scope.
Local Open Scope path_scope.

(* ================================================================== *)
(** * The operating system *)

(** What one [subprocess.run(cmd, capture_output=True, timeout=t)] does:
    the process exits with a return code, or the call raises. *)
Inductive spawn_failure : Type := TimedOut | NotFound | OSFailure.

Inductive outcome : Type :=
| Completed (returncode : Z)
| Failed (f : spawn_failure).

Definition exn_of_failure (f : spawn_failure) : exn :=
  match f with
  | TimedOut => TimeoutExpired
  | NotFound => FileNotFoundError
  | OSFailure => OtherOSError
  end.

(** The interactions of the script with the system, in the order they
    happen: [Path.exists], [subprocess.run], [time.perf_counter_ns]. *)
Inductive event : Type :=
| EvStat (p : Path)
| EvSpawn (cmd : list string) (timeout : Z)
| EvClock.

Definition World : Type := list event.

(** The environment answers each interaction; its answer may depend on
    everything the script has done before. *)
Record Env : Type := {
  path_exists : World -> Path -> bool;
  run_outcome : World -> list string -> Z -> outcome;
  clock_ns : World -> Z
}.

Definition is_spawn (ev : event) : bool :=
  match ev with EvSpawn _ _ => true | _ => false end.
Definition is_clock (ev : event) : bool :=
  match ev with EvClock => true | _ => false end.
Definition is_stat (ev : event) : bool :=
  match ev with EvStat _ => true | _ => false end.

Definition spawn_count (w : World) : nat := List.length (filter is_spawn w).
Definition clock_count (w : World) : nat := List.length (filter is_clock w).
Definition stat_count (w : World) : nat := List.length (filter is_stat w).

(** ** The monad of the script: a result and the log so far *)

Definition M (A : Type) : Type := World -> result A * World.

Definition ret {A} (a : A) : M A := fun w => (Ok a, w).

Definition raise {A} (e : exn) : M A := fun w => (Raise e, w).

Definition bind {A B} (m : M A) (k : A -> M B) : M B :=
  fun w =>
    match m w with
    | (Ok a, w') => k a w'
    | (Raise e, w') => (Raise e, w')
    end.

(** [try: body except classes: handler]. *)
Definition try_except {A} (body : M A) (classes : exn -> bool) (handler : M A)
  : M A :=
  fun w =>
    match body w with
    | (Ok a, w') => (Ok a, w')
    | (Raise e, w') => if classes e then handler w' else (Raise e, w')
    end.

Declare Scope monad_scope.
Delimit Scope monad_scope with monad.
Notation "x <- e ;; k" := (bind e (fun x => k))
  (at level 61, e at next level, right associativity) : monad_scope.
Notation "e ;;; k" := (bind e (fun _ => k))
  (at level 61, right associativity) : monad_scope.

(** [for x in xs: s = body(x, s)]. *)
Fixpoint for_each {A S} (xs : list A) (body : A -> S -> M S) (s : S) : M S :=
  match xs with
  | [] => ret s
  | x :: rest => bind (body x s) (for_each rest body)
  end.

(** [range(n)]. *)
Definition range (n : Z) : list Z := map Z.of_nat (seq 0 (Z.to_nat n)).

(* ================================================================== *)
(** * Benchmark definitions and optimization levels *)

Definition BENCHMARKS : list (string * string) := [
  ("01_fibonacci", "computational");
  ("02_primes_sieve", "computational");
  ("03_factorial", "computational");
  ("04_gcd_lcm", "computational");
  ("05_collatz", "computational");
  ("06_ackermann", "computational");
  ("07_loop_sum", "loop");
  ("08_nested_loops", "loop");
  ("09_loop_unroll", "loop");
  ("10_countdown", "loop");
  ("11_int_arithmetic", "arithmetic");
  ("12_mixed_ops", "arithmetic");
  ("13_division_heavy", "arithmetic");
  ("14_multiply_chain", "arithmetic");
  ("15_modulo_ops", "arithmetic");
  ("16_bit_count", "bitwise");
  ("17_bit_reverse", "bitwise");
  ("18_bit_shift", "bitwise");
  ("19_xor_swap", "bitwise");
  ("20_power_of_two", "bitwise");
  ("21_recursion_deep", "function");
  ("22_tail_recursion", "function");
  ("23_mutual_recursion", "function");
  ("24_function_chain", "function");
  ("25_array_sum", "memory");
  ("26_array_copy", "memory");
  ("27_matrix_mult", "memory");
  ("28_bubble_sort", "memory");
  ("29_binary_search", "memory");
  ("30_memory_throughput", "memory")
].

Record OptConfig : Type := {
  fcx_flags : string;
  c_flags : string;
  desc : string
}.

Definition OPT_CONFIGS : list (string * OptConfig) := [
  ("O0", {| fcx_flags := "-O0"; c_flags := "-O0";
            desc := "No optimizations (debug)" |});
  ("O1", {| fcx_flags := "-O1"; c_flags := "-O1";
            desc := "Basic optimizations" |});
  ("O2", {| fcx_flags := "-O2"; c_flags := "-O2";
            desc := "Standard optimizations" |});
  ("O3", {| fcx_flags := "-O3"; c_flags := "-O3 -march=native -flto";
            desc := "Aggressive optimizations" |});
  ("Os", {| fcx_flags := "-Os"; c_flags := "-Os";
            desc := "Size optimizations" |})
].

(** A [dict] with string keys in insertion order. *)
Fixpoint dict_get {V} (d : list (string * V)) (key : string) : option V :=
  match d with
  | [] => None
  | (k, v) :: rest => if String.eqb k key then Some v else dict_get rest key
  end.

Fixpoint dict_set {V} (d : list (string * V)) (key : string) (v : V)
  : list (string * V) :=
  match d with
  | [] => [(key, v)]
  | (k, v0) :: rest =>
      if String.eqb k key then (k, v) :: rest
      else (k, v0) :: dict_set rest key v
  end.

Definition dict_mem {V} (d : list (string * V)) (key : string) : bool :=
  match dict_get d key with Some _ => true | None => false end.

(** [d[key]]: raises [KeyError] for a missing key. *)
Definition dict_item {V} (d : list (string * V)) (key : string) : result V :=
  match dict_get d key with
  | Some v => Ok v
  | None => Raise (KeyError key)
  end.

(* ================================================================== *)
(** * BenchmarkRunner *)

Record BenchmarkRunner : Type := {
  script_dir : Path;
  fcx_compiler : Path;
  c_compiler : string;
  results_dir : Path;
  bin_dir : Path;
  iterations : Z;
  verbose : bool
}.

(** The assignments of [BenchmarkRunner.__init__]: no argument is checked.
    The two [mkdir(exist_ok=True)] calls that follow them are not part of
    this record; they write no field, and the properties below are about
    runners whose directories were created. *)
Definition new_runner (script_dir : Path) (iterations : Z) (verbose : bool)
  : BenchmarkRunner :=
  {| script_dir := script_dir;
     fcx_compiler := parent script_dir // "bin" // "fcx";
     c_compiler := "clang";
     results_dir := script_dir // "results";
     bin_dir := script_dir // "bin";
     iterations := iterations;
     verbose := verbose |}.

Section Runner.
Context {F : Type} `{PyFloat F}.
Variable env : Env.
Local Open Scope monad_scope.

(** [p.exists()], when the lookup answers: [True] for a path that is there,
    [False] for one that is not.  [Path.exists] can also let an [OSError] of
    the underlying [stat] through (a directory that may not be searched, a
    name that is too long), and the three calls of the script are outside
    every [try]; those runs are not described here: the properties below
    are about runs in which every lookup answers. *)
Definition exists_ (p : Path) : M bool :=
  fun w => (Ok (path_exists env w p), w ++ [EvStat p]).

(** [subprocess.run(cmd, capture_output=True, timeout=timeout)], returning
    the [returncode] of the completed process. *)
Definition subprocess_run (cmd : list string) (timeout : Z) : M Z :=
  fun w =>
    let w' := w ++ [EvSpawn cmd timeout] in
    match run_outcome env w cmd timeout with
    | Completed returncode => (Ok returncode, w')
    | Failed f => (Raise (exn_of_failure f), w')
    end.

(** [time.perf_counter_ns()]. *)
Definition perf_counter_ns : M Z :=
  fun w => (Ok (clock_ns env w), w ++ [EvClock]).

Definition lift {A} (r : result A) : M A := fun w => (r, w).

Definition compile_fcx (self : BenchmarkRunner) (src out : Path)
  (opt_flag : string) : M bool :=
  found <- exists_ src ;;
  if negb found then ret false
  else
    let cmd := [path_str (fcx_compiler self); opt_flag; path_str src; "-o";
                path_str out] in
    try_except
      (returncode <- subprocess_run cmd 30 ;;
       ret (returncode =? 0))
      (fun e => is_TimeoutExpired e || is_FileNotFoundError e)%bool
      (ret false).

Definition compile_c (self : BenchmarkRunner) (src out : Path)
  (opt_flags : string) : M bool :=
  found <- exists_ src ;;
  if negb found then ret false
  else
    let cmd := [c_compiler self] ++ split opt_flags
               ++ [path_str src; "-o"; path_str out] in
    try_except
      (returncode <- subprocess_run cmd 30 ;;
       ret (returncode =? 0))
      (fun e => is_TimeoutExpired e || is_FileNotFoundError e)%bool
      (ret false).

(** [run_binary]: [None] is Python's [None], [Some t] a time in
    milliseconds. *)
Definition run_binary (self : BenchmarkRunner) (binary : Path)
  : M (option F) :=
  found <- exists_ binary ;;
  if negb found then ret None
  else
    try_except
      (subprocess_run [path_str binary] 60 ;;;
       start <- perf_counter_ns ;;
       returncode <- subprocess_run [path_str binary] 60 ;;
       stop <- perf_counter_ns ;;
       if negb ((returncode =? 0) || (returncode =? 1))%bool then ret None
       else ret (Some (int_truediv (stop - start) 1000000)))
      (fun e => is_TimeoutExpired e || is_FileNotFoundError e || is_OSError e)%bool
      (ret None).

(** The body of the loops [for i in range(actual_iterations)] of
    [run_benchmark], which is the same for the two sides. *)
Definition timed_iteration (self : BenchmarkRunner) (binary : Path)
  (i : Z) (times : list F) : M (list F) :=
  t <- run_binary self binary ;;
  match t with
  | Some t => if i >? 0 then ret (times ++ [t]) else ret times
  | None => ret times
  end.

Definition timed_runs (self : BenchmarkRunner) (binary : Path)
  (actual_iterations : Z) : M (list F) :=
  for_each (range actual_iterations) (timed_iteration self binary) [].

Definition run_benchmark (self : BenchmarkRunner)
  (name category opt_level : string) : M (BenchmarkResult F) :=
  config <- lift (dict_item OPT_CONFIGS opt_level) ;;
  let fcx_src := script_dir self // "fcx" // (name ++ ".fcx") in
  let c_src := script_dir self // "c" // (name ++ ".c") in
  let fcx_bin := bin_dir self // (name ++ "_fcx_" ++ lower opt_level) in
  let c_bin := bin_dir self // (name ++ "_c_" ++ lower opt_level) in
  fcx_compiled <- compile_fcx self fcx_src fcx_bin (fcx_flags config) ;;
  c_compiled <- compile_c self c_src c_bin (c_flags config) ;;
  let actual_iterations := iterations self + 2 in
  fcx_times <- (if fcx_compiled : bool
                then timed_runs self fcx_bin actual_iterations
                else ret []) ;;
  c_times <- (if c_compiled : bool
              then timed_runs self c_bin actual_iterations
              else ret []) ;;
  ret {| name := name;
         category := category;
         opt_level := opt_level;
         fcx_times := fcx_times;
         c_times := c_times;
         fcx_compiled := fcx_compiled;
         c_compiled := c_compiled |}.

(** [print_header] reads [OPT_CONFIGS[opt_level]] and prints. *)
Definition print_header (self : BenchmarkRunner) (opt_level : string)
  (category : option string) : M unit :=
  lift (dict_item OPT_CONFIGS opt_level) ;;; ret tt.

Definition selected (category : option string) (entry : string * string)
  : bool :=
  match category with
  | None => true
  | Some wanted => String.eqb (snd entry) wanted
  end.

(** [run_all]; [print_result] only prints. *)
Definition run_all (self : BenchmarkRunner) (opt_level : string)
  (category : option string) : M (list (BenchmarkResult F)) :=
  print_header self opt_level category ;;;
  let benchmarks := filter (selected category) BENCHMARKS in
  for_each benchmarks
    (fun entry results =>
       result <- run_benchmark self (fst entry) (snd entry) opt_level ;;
       ret (results ++ [result]))
    [].

End Runner.

(* ================================================================== *)
(** * The category table of [print_summary] *)

Section Summary.
Context {F : Type} `{PyFloat F}.
Local Open Scope result_scope.

(** [categories]: results grouped by category, in insertion order. *)
Definition group_step (categories : list (string * list (BenchmarkResult F)))
  (r : BenchmarkResult F) : result (list (string * list (BenchmarkResult F))) :=
  let categories :=
    if negb (dict_mem categories (category r))
    then dict_set categories (category r) []
    else categories in
  members <~ dict_item categories (category r) ;;
  Ok (dict_set categories (category r) (members ++ [r])).

Fixpoint group_from (results : list (BenchmarkResult F))
  (categories : list (string * list (BenchmarkResult F)))
  : result (list (string * list (BenchmarkResult F))) :=
  match results with
  | [] => Ok categories
  | r :: rest => categories <~ group_step categories r ;; group_from rest categories
  end.

Definition group_by_category (results : list (BenchmarkResult F))
  : result (list (string * list (BenchmarkResult F))) :=
  group_from results [].

(** [sorted(categories.items())]: the keys of a dict are distinct, so the
    order of the items is the order of the keys. *)
Fixpoint insert_item {V} (item : string * V) (items : list (string * V))
  : list (string * V) :=
  match items with
  | [] => [item]
  | other :: rest =>
      if String.ltb (fst item) (fst other) then item :: other :: rest
      else other :: insert_item item rest
  end.

Definition sorted {V} (items : list (string * V)) : list (string * V) :=
  fold_right insert_item [] items.

(** [[get(r) for r in rs if get(r) > 0]]. *)
Fixpoint positive_values (get : BenchmarkResult F -> result F)
  (rs : list (BenchmarkResult F)) : result (list F) :=
  match rs with
  | [] => Ok []
  | r :: rest =>
      v <~ get r ;;
      if py_gt v fzero
      then v <~ get r ;; vs <~ positive_values get rest ;; Ok (v :: vs)
      else positive_values get rest
  end.

(** One line of "Category Averages". *)
Record CategoryRow : Type := {
  row_category : string;
  row_fcx_avg : F;
  row_c_avg : F;
  row_ratio : F
}.

Definition category_row (item : string * list (BenchmarkResult F))
  : result CategoryRow :=
  let (cat, cat_results) := item in
  fcx_times <~ positive_values fcx_min cat_results ;;
  c_times <~ positive_values c_min cat_results ;;
  fcx_avg <~ (if truthy fcx_times then py_mean fcx_times else Ok fzero) ;;
  c_avg <~ (if truthy c_times then py_mean c_times else Ok fzero) ;;
  ratio <~ (if py_gt c_avg fzero then py_truediv fcx_avg c_avg else Ok fzero) ;;
  Ok {| row_category := cat;
        row_fcx_avg := fcx_avg;
        row_c_avg := c_avg;
        row_ratio := ratio |}.

Fixpoint category_rows (items : list (string * list (BenchmarkResult F)))
  : result (list CategoryRow) :=
  match items with
  | [] => Ok []
  | item :: rest =>
      row <~ category_row item ;;
      rows <~ category_rows rest ;;
      Ok (row :: rows)
  end.

(** [print_summary], as far as it aggregates: the lines it prints under
    "Category Averages", one per category in sorted order.  The banner and
    the CSV file, which repeat the accessors of each result, are left
    out. *)
Definition print_summary (results : list (BenchmarkResult F))
  : result (list CategoryRow) :=
  categories <~ group_by_category results ;;
  category_rows (sorted categories).

End Summary.

(* ================================================================== *)
(** * Specification vocabulary *)

Section Vocabulary.
Context {F : Type} `{PyFloat F}.

(** The same result with every candidate sample multiplied by [k]. *)
Definition scale_candidate (k : F) (self : BenchmarkResult F)
  : BenchmarkResult F :=
  {| name := name self;
     category := category self;
     opt_level := opt_level self;
     fcx_times := map (fmul k) (fcx_times self);
     c_times := c_times self;
     fcx_compiled := fcx_compiled self;
     c_compiled := c_compiled self |}.

(** The minimum of a sequence, with the sentinel of the accessors. *)
Definition min_or_zero (xs : list F) : F :=
  match xs with
  | [] => fzero
  | x :: rest =>
      fold_left (fun best item => if py_lt item best then item else best)
        rest x
  end.

(** A result with the given sample sequences and the other fields of
    [self]. *)
Definition with_times (self : BenchmarkResult F) (fcx c : list F)
  : BenchmarkResult F :=
  {| name := name self;
     category := category self;
     opt_level := opt_level self;
     fcx_times := fcx;
     c_times := c;
     fcx_compiled := fcx_compiled self;
     c_compiled := c_compiled self |}.

(** The mean of the candidate minimums of all the benchmarks of a category
    divided by the mean of their reference minimums, with the sentinel [0]
    when the reference mean is not positive; a side without samples counts
    with the 0 of its accessor, so this is the category ratio only where
    every benchmark has samples on both sides. *)
Definition mean_of_minimums_ratio (cat_results : list (BenchmarkResult F))
  : F :=
  let fcx_mean := fmean (map (fun r => min_or_zero (fcx_times r)) cat_results) in
  let c_mean := fmean (map (fun r => min_or_zero (c_times r)) cat_results) in
  if py_gt c_mean fzero then fdiv fcx_mean c_mean else fzero.

(** The per-benchmark minimums of one side that are [> 0]. *)
Definition positive_minimums (times : BenchmarkResult F -> list F)
  (cat_results : list (BenchmarkResult F)) : list F :=
  filter (fun v => py_gt v fzero)
    (map (fun r => min_or_zero (times r)) cat_results).

Definition mean_or_zero (xs : list F) : F :=
  match xs with [] => fzero | _ :: _ => fmean xs end.



Definition in_category (cat : string) (r : BenchmarkResult F) : bool :=
  String.eqb (category r) cat.

(** The line of the table for the category [cat] with the results
    [members]: each side averages its own positive minimums. *)
Definition expected_row (cat : string) (members : list (BenchmarkResult F))
  : CategoryRow :=
  let fcx_avg := mean_or_zero (positive_minimums fcx_times members) in
  let c_avg := mean_or_zero (positive_minimums c_times members) in
  {| row_category := cat;
     row_fcx_avg := fcx_avg;
     row_c_avg := c_avg;
     row_ratio := if py_gt c_avg fzero then fdiv fcx_avg c_avg else fzero |}.

(** [categories] holds, under each category that occurs in [seen], the
    results of [seen] with that category, in order. *)
Definition grouped (seen : list (BenchmarkResult F))
  (categories : list (string * list (BenchmarkResult F))) : Prop :=
  NoDup (map fst categories) /\
  forall cat,
    dict_get categories cat
    = match filter (in_category cat) seen with
      | [] => None
      | r :: rest => Some (r :: rest)
      end.

Definition sample_of (t : option F) : list F :=
  match t with Some t => [t] | None => [] end.

End Vocabulary.

(** The log of one [run_binary] call in which both executions complete:
    the existence check, the warm-up execution, and the timed execution
    between two clock readings. *)
Definition run_binary_log (binary : Path) : World :=
  [EvStat binary;
   EvSpawn [path_str binary] 60;
   EvClock;
   EvSpawn [path_str binary] 60;
   EvClock].

(** The [run_binary] call that starts at the log [w] succeeds: the lookup
    finds the binary, the warm-up execution completes (its exit code is not
    looked at), and the timed execution completes with exit code 0 or 1. *)
Definition call_succeeds (env : Env) (binary : Path) (w : World) : Prop :=
  path_exists env w binary = true /\
  (exists returncode0,
     run_outcome env (w ++ [EvStat binary]) [path_str binary] 60
     = Completed returncode0) /\
  (exists returncode,
     run_outcome env
       (w ++ [EvStat binary; EvSpawn [path_str binary] 60; EvClock])
       [path_str binary] 60 = Completed returncode /\
     (returncode = 0 \/ returncode = 1)).

(** Every execution of a measurement phase of [calls] calls that starts at
    the log [w] succeeds: the first call succeeds, and so do the remaining
    ones, which start where the first one ended. *)
Fixpoint phase_succeeds (env : Env) (binary : Path) (calls : nat) (w : World)
  : Prop :=
  match calls with
  | O => True
  | S rest =>
      call_succeeds env binary w /\
      phase_succeeds env binary rest (w ++ run_binary_log binary)
  end.

(** From the log [start] on, whatever happens next, the binary is there and
    every execution of it completes with exit code 0 or 1. *)
Definition succeeds_from (env : Env) (binary : Path) (start : World) : Prop :=
  forall later,
    path_exists env (start ++ later) binary = true /\
    exists returncode,
      run_outcome env (start ++ later) [path_str binary] 60
      = Completed returncode /\
      (returncode = 0 \/ returncode = 1).

Section RunVocabulary.
Context {F : Type} `{PyFloat F}.
Variable env : Env.

(** The four ways a [run_binary] call can go. *)
Inductive run_binary_case (binary : Path) (w : World)
  : option F -> World -> Prop :=
| binary_missing :
    path_exists env w binary = false ->
    run_binary_case binary w None (w ++ [EvStat binary])
| warm_up_raises f :
    path_exists env w binary = true ->
    run_outcome env (w ++ [EvStat binary]) [path_str binary] 60 = Failed f ->
    run_binary_case binary w None
      (w ++ [EvStat binary; EvSpawn [path_str binary] 60])
| timed_run_raises returncode0 f :
    path_exists env w binary = true ->
    run_outcome env (w ++ [EvStat binary]) [path_str binary] 60
      = Completed returncode0 ->
    run_outcome env (w ++ [EvStat binary; EvSpawn [path_str binary] 60; EvClock])
      [path_str binary] 60 = Failed f ->
    run_binary_case binary w None
      (w ++ [EvStat binary; EvSpawn [path_str binary] 60; EvClock;
             EvSpawn [path_str binary] 60])
| timed_run_completes returncode0 returncode :
    path_exists env w binary = true ->
    run_outcome env (w ++ [EvStat binary]) [path_str binary] 60
      = Completed returncode0 ->
    run_outcome env (w ++ [EvStat binary; EvSpawn [path_str binary] 60; EvClock])
      [path_str binary] 60 = Completed returncode ->
    run_binary_case binary w
      (if ((returncode =? 0) || (returncode =? 1))%bool
       then Some (int_truediv
                    (clock_ns env (w ++ [EvStat binary;
                                         EvSpawn [path_str binary] 60; EvClock;
                                         EvSpawn [path_str binary] 60])
                     - clock_ns env (w ++ [EvStat binary;
                                           EvSpawn [path_str binary] 60]))
                    1000000)
       else None)
      (w ++ run_binary_log binary).

(** The time in milliseconds that the [run_binary] call starting at the log
    [w] measures when both executions complete: [(end - start) / 1_000_000]
    for the clock readings around the timed execution. *)
Definition call_time (binary : Path) (w : World) : F :=
  int_truediv
    (clock_ns env (w ++ [EvStat binary; EvSpawn [path_str binary] 60; EvClock;
                         EvSpawn [path_str binary] 60])
     - clock_ns env (w ++ [EvStat binary; EvSpawn [path_str binary] 60]))
    1000000.

(** The times measured by [calls] successive complete calls, the first of
    which starts at the log [w]. *)
Fixpoint call_times (binary : Path) (calls : nat) (w : World) : list F :=
  match calls with
  | O => []
  | S rest =>
      call_time binary w :: call_times binary rest (w ++ run_binary_log binary)
  end.

End RunVocabulary.

(** The paths [run_benchmark] derives from a benchmark name and an
    optimization level. *)
Definition fcx_src_of (self : BenchmarkRunner) (name : string) : Path :=
  script_dir self // "fcx" // (name ++ ".fcx").
Definition c_src_of (self : BenchmarkRunner) (name : string) : Path :=
  script_dir self // "c" // (name ++ ".c").
Definition fcx_bin_of (self : BenchmarkRunner) (name opt_level : string)
  : Path :=
  bin_dir self // (name ++ "_fcx_" ++ lower opt_level).
Definition c_bin_of (self : BenchmarkRunner) (name opt_level : string)
  : Path :=
  bin_dir self // (name ++ "_c_" ++ lower opt_level).

Section PhaseVocabulary.
Context {F : Type} `{PyFloat F}.
Variable env : Env.

(** The log at which the candidate measurement phase of the [run_benchmark]
    call that starts at [w] begins: the log after the two compile steps. *)
Definition candidate_phase_start (self : BenchmarkRunner)
  (name opt_level : string) (config : OptConfig) (w : World) : World :=
  snd (compile_c env self (c_src_of self name) (c_bin_of self name opt_level)
         (c_flags config)
         (snd (compile_fcx env self (fcx_src_of self name)
                 (fcx_bin_of self name opt_level) (fcx_flags config) w))).

(** The log at which the reference measurement phase begins: the log after
    the candidate phase, which takes place when the candidate was built. *)
Definition reference_phase_start (self : BenchmarkRunner)
  (name opt_level : string) (config : OptConfig) (w : World) : World :=
  match fst (compile_fcx env self (fcx_src_of self name)
               (fcx_bin_of self name opt_level) (fcx_flags config) w) with
  | Ok true =>
      snd (timed_runs (F:=F) env self (fcx_bin_of self name opt_level)
             (iterations self + 2)
             (candidate_phase_start self name opt_level config w))
  | _ => candidate_phase_start self name opt_level config w
  end.

End PhaseVocabulary.

(** What a compile step does, for the source [src] and the command [cmd]. *)
Definition build_contract (env : Env) (build : M bool) (src : Path)
  (cmd : list string) : Prop :=
  forall w,
    let w1 := w ++ [EvStat src] in
    (fst (build w) = Ok true <->
       path_exists env w src = true /\
       run_outcome env w1 cmd 30 = Completed 0) /\
    (path_exists env w src = false -> build w = (Ok false, w1)) /\
    (path_exists env w src = true ->
       snd (build w) = w1 ++ [EvSpawn cmd 30]) /\
    (path_exists env w src = true ->
       run_outcome env w1 cmd 30 = Failed TimedOut \/
       run_outcome env w1 cmd 30 = Failed NotFound ->
       fst (build w) = Ok false) /\
    (path_exists env w src = true ->
       run_outcome env w1 cmd 30 = Failed OSFailure ->
       fst (build w) = Raise OtherOSError).

(* ================================================================== *)
(** * Scenarios *)

Module Scenario.

(** Every file exists, every process exits with 0, and each interaction
    takes one millisecond. *)
Definition all_fine : Env :=
  {| path_exists := fun _ _ => true;
     run_outcome := fun _ _ _ => Completed 0;
     clock_ns := fun w => 1000000 * Z.of_nat (List.length w) |}.

(** The compilers are present but cannot be executed. *)
Definition not_executable : Env :=
  {| path_exists := fun _ _ => true;
     run_outcome := fun _ _ _ => Failed OSFailure;
     clock_ns := fun w => 1000000 * Z.of_nat (List.length w) |}.

Definition bench_dir : Path := ["home"; "fcx"; "benchmarks"].

Definition is_fcx_source (p : Path) : bool :=
  match p with
  | [_; _; _; dir; _] => String.eqb dir "fcx"
  | _ => false
  end.

(** No candidate source exists, and [clang] cannot be executed. *)
Definition no_candidate_no_clang : Env :=
  {| path_exists := fun _ p => negb (is_fcx_source p);
     run_outcome := fun _ _ _ => Failed OSFailure;
     clock_ns := fun w => 1000000 * Z.of_nat (List.length w) |}.

(** No candidate source exists; everything else is fine. *)
Definition no_candidate : Env :=
  {| path_exists := fun _ p => negb (is_fcx_source p);
     run_outcome := fun _ _ _ => Completed 0;
     clock_ns := fun w => 1000000 * Z.of_nat (List.length w) |}.

(** The second timed execution crashes; the others exit with 0 or 1. *)
Definition one_crash : Env :=
  {| path_exists := fun _ _ => true;
     run_outcome := fun w _ _ =>
       if Nat.eqb (spawn_count w) 3 then Completed 139
       else Completed (Z.of_nat (spawn_count w) mod 2);
     clock_ns := fun w => 1000000 * Z.of_nat (List.length w) |}.

Definition is_source (p : Path) : bool :=
  match p with
  | [_; _; _; dir; _] => (String.eqb dir "fcx" || String.eqb dir "c")%bool
  | _ => false
  end.

(** A compiler has been run with the output path [p]: its command ends in
    [-o p]. *)
Definition was_built (w : World) (p : Path) : bool :=
  existsb (fun ev =>
             match ev with
             | EvSpawn cmd timeout =>
                 ((timeout =? 30) && String.eqb (last cmd "") (path_str p))%bool
             | _ => false
             end) w.

(** A fresh checkout: the sources are there, a binary is there once a
    compiler has written it, and every process exits with 0. *)
Definition fresh_build : Env :=
  {| path_exists := fun w p => (is_source p || was_built w p)%bool;
     run_outcome := fun _ _ _ => Completed 0;
     clock_ns := fun w => 1000000 * Z.of_nat (List.length w) |}.

Definition one_iteration : BenchmarkRunner := new_runner bench_dir 1 false.
Definition five_iterations : BenchmarkRunner := new_runner bench_dir 5 false.
Definition no_iterations : BenchmarkRunner := new_runner bench_dir 0 false.
Definition negative_iterations : BenchmarkRunner :=
  new_runner bench_dir (-3) false.

Definition loop_sum_bin : Path := bench_dir // "bin" // "07_loop_sum_fcx_o2".

(** The log of a fresh checkout after the candidate of [07_loop_sum] has
    been compiled. *)
Definition after_build : World :=
  snd (compile_fcx fresh_build five_iterations
         (fcx_src_of five_iterations "07_loop_sum") loop_sum_bin "-O2" []).


Definition sample_result (fcx c : list float) : BenchmarkResult float :=
  {| name := "07_loop_sum";
     category := "loop";
     opt_level := "O2";
     fcx_times := fcx;
     c_times := c;
     fcx_compiled := truthy fcx;
     c_compiled := truthy c |}.

(** One millisecond against ten. *)
Definition one_to_ten : BenchmarkResult float :=
  sample_result [1%float] [10%float].


(** Candidate times 3.0 and 2.0 against reference times 4.0 and 8.0. *)
Definition three_to_four : BenchmarkResult float :=
  sample_result [3%float; 2%float] [4%float; 8%float].


Definition exact_result : BenchmarkResult Qc :=
  {| name := "07_loop_sum";
     category := "loop";
     opt_level := "O2";
     fcx_times := [Exact.of_Z 5; Exact.of_Z 3];
     c_times := [Exact.of_Z 4; Exact.of_Z 2];
     fcx_compiled := true;
     c_compiled := true |}.

End Scenario.

(* ================================================================== *)
(** * print_result and the options of main *)

(** The float literals of [print_result]: [1.1] and [2.0]. *)
Class PyFloatLiterals (F : Type) : Type := {
  lit_1_1 : F;
  lit_2_0 : F
}.

#[global] Instance binary64_literals : PyFloatLiterals float := {
  lit_1_1 := 0x1.199999999999ap+0%float;
  lit_2_0 := 2%float
}.

#[global] Instance rational_literals : PyFloatLiterals Qc := {
  lit_1_1 := Q2Qc (11 # 10);
  lit_2_0 := Q2Qc 2
}.

(** The colours [print_result] chooses from. *)
Inductive Colors : Type := RED | GREEN | YELLOW.

Section Report.
Context {F : Type} `{PyFloat F} `{PyFloatLiterals F}.
Local Open Scope result_scope.

(** What [print_result] shows for one side: the minimum and the number of
    runs, or "compilation failed or not found". *)
Inductive SideLine : Type :=
| MinOfRuns (min_ms : F) (runs : nat)
| CompilationFailedOrNotFound.

Record RatioLine : Type := {
  shown_ratio : F;
  shown_color : Colors;
  shown_status : string
}.

Record ResultReport : Type := {
  report_fcx : SideLine;
  report_c : SideLine;
  report_ratio : option RatioLine
}.

(** [print_result], for the result [res]: the content of the lines it
    prints after the banner with the name and the category; number
    formatting is left out. *)
Definition print_result (res : BenchmarkResult F) : result ResultReport :=
  fcx_line <~ (if (if fcx_compiled res then truthy (fcx_times res)
                   else false)
               then m <~ fcx_min res ;;
                    Ok (MinOfRuns m (List.length (fcx_times res)))
               else Ok CompilationFailedOrNotFound) ;;
  c_line <~ (if (if c_compiled res then truthy (c_times res)
                 else false)
             then m <~ c_min res ;;
                  Ok (MinOfRuns m (List.length (c_times res)))
             else Ok CompilationFailedOrNotFound) ;;
  r <~ ratio res ;;
  ratio_line <~
    (if py_gt r fzero
     then
       r1 <~ ratio res ;;
       choice <~ (if py_lt r1 lit_1_1
                  then Ok (GREEN, "FCx is competitive")
                  else
                    r2 <~ ratio res ;;
                    if py_lt r2 lit_2_0
                    then Ok (YELLOW, "FCx is slower")
                    else Ok (RED, "FCx needs optimization")) ;;
       shown <~ ratio res ;;
       Ok (Some {| shown_ratio := shown;
                   shown_color := fst choice;
                   shown_status := snd choice |})
     else Ok None) ;;
  Ok {| report_fcx := fcx_line;
        report_c := c_line;
        report_ratio := ratio_line |}.

End Report.

Arguments SideLine F : clear implicits.
Arguments RatioLine F : clear implicits.
Arguments ResultReport F : clear implicits.

(** The namespace [parse_args] returns. *)
Record Args : Type := {
  O0 : bool;
  O1 : bool;
  O2 : bool;
  O3 : bool;
  Os : bool;
  args_category : option string;
  args_iterations : Z;
  args_verbose : bool
}.

(** "Determine optimization level" in [main]. *)
Definition main_opt_level (args : Args) : string :=
  if O0 args then "O0"
  else if O1 args then "O1"
  else if O3 args then "O3"
  else if Os args then "Os"
  else "O2".

(* ================================================================== *)
(** * More specification vocabulary *)

(** The interactions of one [run_binary] call on [binary]. *)
Definition binary_event (binary : Path) (ev : event) : Prop :=
  ev = EvStat binary \/ ev = EvClock \/ ev = EvSpawn [path_str binary] 60.

(** The interactions of one compile step for [src] with the command
    [cmd]. *)
Definition compile_event (src : Path) (cmd : list string) (ev : event)
  : Prop :=
  ev = EvStat src \/ ev = EvSpawn cmd 30.

(** The event starts a process with the command [cmd]. *)
Definition spawns (cmd : list string) (ev : event) : Prop :=
  exists timeout, ev = EvSpawn cmd timeout.

(** The event, if it starts a process, gives it a timeout of 30 or 60
    seconds. *)
Definition bounded_spawn (ev : event) : Prop :=
  forall cmd timeout, ev = EvSpawn cmd timeout -> timeout = 30 \/ timeout = 60.

(** The clock never goes back. *)
Definition monotone_clock (env : Env) : Prop :=
  forall w later, clock_ns env w <= clock_ns env (w ++ later).

(** No spawn fails with an [OSError] other than [FileNotFoundError]. *)
Definition no_os_failure (env : Env) : Prop :=
  forall w cmd timeout, run_outcome env w cmd timeout <> Failed OSFailure.

(** The commands of the two compile steps of [run_benchmark]. *)
Definition fcx_cmd_of (self : BenchmarkRunner) (name opt_level : string)
  (config : OptConfig) : list string :=
  [path_str (fcx_compiler self); fcx_flags config;
   path_str (fcx_src_of self name); "-o";
   path_str (fcx_bin_of self name opt_level)].

Definition c_cmd_of (self : BenchmarkRunner) (name opt_level : string)
  (config : OptConfig) : list string :=
  [c_compiler self] ++ split (c_flags config)
  ++ [path_str (c_src_of self name); "-o";
      path_str (c_bin_of self name opt_level)].

Section MoreVocabulary.
Context {F : Type} `{PyFloat F}.

(** The catalog entry a result stands for. *)
Definition entry_of (r : BenchmarkResult F) : string * string :=
  (name r, category r).

(** A result as [run_benchmark] builds it: a side that was not built has
    no samples. *)
Definition samples_only_if_built (r : BenchmarkResult F) : Prop :=
  (fcx_compiled r = false -> fcx_times r = []) /\
  (c_compiled r = false -> c_times r = []).

(** A sample is the quotient by 1,000,000 of a non-negative number of
    nanoseconds. *)
Definition elapsed_ms (t : F) : Prop :=
  exists ns, 0 <= ns /\ t = int_truediv ns 1000000.

End MoreVocabulary.

(** The items of a dict in strictly increasing order of their keys. *)
Definition key_lt {V : Type} (a b : string * V) : Prop :=
  String.ltb (fst a) (fst b) = true.

(** ** More scenarios *)

Module Cases.

(** Two benchmarks of one category and one of another, all measured on
    both sides. *)
Definition all_measured : list (BenchmarkResult float) :=
  [ Scenario.sample_result [3%float; 2%float] [1%float; 2%float];
    {| name := "25_array_sum";
       category := "memory";
       opt_level := "O2";
       fcx_times := [5%float; 6%float];
       c_times := [4%float];
       fcx_compiled := true;
       c_compiled := true |};
    {| name := "08_nested_loops";
       category := "loop";
       opt_level := "O2";
       fcx_times := [4%float];
       c_times := [2%float; 3%float];
       fcx_compiled := true;
       c_compiled := true |} ].

(** [-O0 -O3 -c loop -i 1]. *)
Definition o0_o3_loop : Args :=
  {| O0 := true; O1 := false; O2 := false; O3 := true; Os := false;
     args_category := Some "loop";
     args_iterations := 1;
     args_verbose := false |}.

(** The binary is missing, whatever else happens. *)
Definition nothing_there : Env :=
  {| path_exists := fun _ _ => false;
     run_outcome := fun _ _ _ => Completed 0;
     clock_ns := fun w => 1000000 * Z.of_nat (List.length w) |}.

(** Every execution times out. *)
Definition always_timeout : Env :=
  {| path_exists := fun _ _ => true;
     run_outcome := fun _ _ _ => Failed TimedOut;
     clock_ns := fun w => 1000000 * Z.of_nat (List.length w) |}.

End Cases.

(* ================================================================== *)
(** * Properties of BenchmarkResult *)

Section BenchmarkResultFacts.
Context {F : Type} `{PyFloat F}.

Lemma fcx_min_value (self : BenchmarkResult F) :
  fcx_min self = Ok (min_or_zero (fcx_times self)).
Proof. unfold fcx_min. destruct (fcx_times self); reflexivity. Qed.

Lemma c_min_value (self : BenchmarkResult F) :
  c_min self = Ok (min_or_zero (c_times self)).
Proof. unfold c_min. destruct (c_times self); reflexivity. Qed.

Lemma fcx_avg_value (self : BenchmarkResult F) :
  fcx_avg self = Ok (mean_or_zero (fcx_times self)).
Proof. unfold fcx_avg. destruct (fcx_times self); reflexivity. Qed.

Lemma c_avg_value (self : BenchmarkResult F) :
  c_avg self = Ok (mean_or_zero (c_times self)).
Proof. unfold c_avg. destruct (c_times self); reflexivity. Qed.

(** The builtins the accessors guard do raise on an empty sequence. *)
Lemma builtins_raise_on_empty :
  py_min (F:=F) [] = Raise ValueError /\ py_mean (F:=F) [] = Raise StatisticsError.
Proof. split; reflexivity. Qed.

Lemma py_gt_zero_zero : py_gt (F:=F) fzero fzero = false.
Proof. unfold py_gt. now rewrite fcompare_zero. Qed.

(** A divisor that is [> 0] is not zero: the quotient is returned. *)
Lemma py_truediv_pos (x y : F) :
  py_gt y fzero = true -> py_truediv x y = Ok (fdiv x y).
Proof.
  unfold py_gt, py_truediv. destruct (fcompare y fzero); try discriminate.
  reflexivity.
Qed.

Lemma ratio_value (self : BenchmarkResult F) :
  ratio self =
    Ok (if py_gt (min_or_zero (c_times self)) fzero
           && py_gt (min_or_zero (fcx_times self)) fzero
        then fdiv (min_or_zero (fcx_times self)) (min_or_zero (c_times self))
        else fzero).
Proof.
  unfold ratio. rewrite c_min_value, fcx_min_value. cbn [rbind].
  destruct (py_gt (min_or_zero (c_times self)) fzero) eqn:Hc; cbn [rbind andb].
  - destruct (py_gt (min_or_zero (fcx_times self)) fzero) eqn:Hf.
    + now apply py_truediv_pos.
    + reflexivity.
  - reflexivity.
Qed.

(** C10: the four derived accessors return a value on every sample
    sequence, and on an empty sequence that value is the sentinel 0.0; none
    of them raises. *)
Theorem accessors_total (self : BenchmarkResult F) :
  (exists v, fcx_min self = Ok v) /\
  (exists v, c_min self = Ok v) /\
  (exists v, fcx_avg self = Ok v) /\
  (exists v, c_avg self = Ok v) /\
  fcx_min (with_times self [] (c_times self)) = Ok fzero /\
  fcx_avg (with_times self [] (c_times self)) = Ok fzero /\
  c_min (with_times self (fcx_times self) []) = Ok fzero /\
  c_avg (with_times self (fcx_times self) []) = Ok fzero.
Proof.
  repeat split; try reflexivity.
  - eexists; apply fcx_min_value.
  - eexists; apply c_min_value.
  - eexists; apply fcx_avg_value.
  - eexists; apply c_avg_value.
Qed.

Lemma fold_min_member (rest : list F) (x : F) :
  In (fold_left (fun best item => if py_lt item best then item else best)
        rest x) (x :: rest).
Proof.
  revert x. induction rest as [|y rest IH]; intros x; cbn [fold_left].
  - now left.
  - destruct (py_lt y x).
    + right. apply IH.
    + destruct (IH x) as [Heq|Hin]; [now left | right; now right].
Qed.


(** The minimum of a non-empty sequence is what the builtin [min]
    returns. *)
Lemma py_min_value (x : F) (rest : list F) :
  py_min (x :: rest) = Ok (min_or_zero (x :: rest)).
Proof. reflexivity. Qed.

(** C2: with the candidate minimum and the reference minimum taken over
    the two sample sequences (the sentinel 0 for an empty sequence), [ratio]
    is candidate-min / reference-min when both minimums are strictly
    positive and 0 otherwise; with an empty reference sequence it is 0
    whatever the candidate sequence is; it never raises, so no division by
    zero is attempted. *)
Theorem ratio_guarded (self : BenchmarkResult F) :
  fcx_min self = Ok (min_or_zero (fcx_times self)) /\
  c_min self = Ok (min_or_zero (c_times self)) /\
  ratio self =
    Ok (if py_gt (min_or_zero (c_times self)) fzero
           && py_gt (min_or_zero (fcx_times self)) fzero
        then fdiv (min_or_zero (fcx_times self)) (min_or_zero (c_times self))
        else fzero) /\
  ratio (with_times self (fcx_times self) []) = Ok fzero /\
  (forall e, ratio self <> Raise e).
Proof.
  split; [apply fcx_min_value|].
  split; [apply c_min_value|].
  split; [apply ratio_value|].
  split.
  - rewrite ratio_value. cbn [with_times c_times min_or_zero].
    now rewrite py_gt_zero_zero.
  - intros e. rewrite ratio_value. discriminate.
Qed.

End BenchmarkResultFacts.

(** ** Scaling the candidate samples *)

Section ScalingFacts.
Context {F : Type} `{PyFloat F}.

(** The ratio of the scaled result is computed from the minimum of the
    products. *)
Lemma ratio_scaled_value (self : BenchmarkResult F) (k : F) :
  ratio (scale_candidate k self)
  = Ok (if py_gt (min_or_zero (c_times self)) fzero
           && py_gt (min_or_zero (map (fmul k) (fcx_times self))) fzero
        then fdiv (min_or_zero (map (fmul k) (fcx_times self)))
               (min_or_zero (c_times self))
        else fzero).
Proof. rewrite ratio_value. reflexivity. Qed.

(** Where the multiplication by [k] keeps the order of the samples, the
    minimum of the products is the product of the minimum. *)
Lemma fold_min_scaled (k : F) (xs rest : list F) :
  (forall x y, In x xs -> In y xs ->
     py_lt (fmul k x) (fmul k y) = py_lt x y) ->
  forall x,
    incl (x :: rest) xs ->
    fold_left (fun best item => if py_lt item best then item else best)
      (map (fmul k) rest) (fmul k x) =
    fmul k (fold_left (fun best item => if py_lt item best then item else best)
              rest x).
Proof.
  intros Hlt.
  induction rest as [|y rest IH]; intros x Hincl; cbn [map fold_left].
  - reflexivity.
  - rewrite Hlt.
    + destruct (py_lt y x); apply IH; intros z [<-|Hz]; apply Hincl; cbn; auto.
    + apply Hincl. cbn; auto.
    + apply Hincl. cbn; auto.
Qed.

Lemma min_or_zero_scaled (k : F) (xs : list F) :
  (forall x y, In x xs -> In y xs ->
     py_lt (fmul k x) (fmul k y) = py_lt x y) ->
  fmul k fzero = fzero ->
  min_or_zero (map (fmul k) xs) = fmul k (min_or_zero xs).
Proof.
  intros Hlt Hzero. destruct xs as [|x rest]; cbn [map min_or_zero].
  - now symmetry.
  - apply (fold_min_scaled k (x :: rest) rest Hlt). apply incl_refl.
Qed.

(** The scaling law, from the four facts about the arithmetic at the
    samples that it needs. *)
Lemma ratio_scaling_equation (self : BenchmarkResult F) (k : F) :
  (forall x y, In x (fcx_times self) -> In y (fcx_times self) ->
     py_lt (fmul k x) (fmul k y) = py_lt x y) ->
  fmul k fzero = fzero ->
  py_gt (fmul k (min_or_zero (fcx_times self))) fzero
  = py_gt (min_or_zero (fcx_times self)) fzero ->
  fdiv (fmul k (min_or_zero (fcx_times self))) (min_or_zero (c_times self))
  = fmul k (fdiv (min_or_zero (fcx_times self)) (min_or_zero (c_times self))) ->
  exists r,
    ratio self = Ok r /\
    ratio (scale_candidate k self) = Ok (fmul k r).
Proof.
  intros Hlt Hzero Hpos Hdiv. eexists. split; [apply ratio_value|].
  rewrite ratio_scaled_value, (min_or_zero_scaled k _ Hlt Hzero), Hpos.
  destruct (py_gt (min_or_zero (c_times self)) fzero
            && py_gt (min_or_zero (fcx_times self)) fzero).
  - now rewrite Hdiv.
  - now rewrite Hzero.
Qed.


End ScalingFacts.

Section Scaling.
Context {F : Type} `{ExactArith F}.

(** In an arithmetic without rounding, multiplying every candidate sample
    by [k > 0] multiplies the ratio by [k]. *)
Lemma ratio_scaling_without_rounding (self : BenchmarkResult F) (k : F) :
  py_gt k fzero = true ->
  exists r,
    ratio self = Ok r /\
    ratio (scale_candidate k self) = Ok (fmul k r).
Proof.
  intros Hk. apply ratio_scaling_equation.
  - intros x y _ _. now apply fmul_lt.
  - apply fmul_zero.
  - now apply fmul_gt_zero.
  - apply fmul_div.
Qed.

End Scaling.

(** The rationals are an arithmetic without rounding. *)

Lemma exact_gt_iff (a b : Qc) : py_gt a b = true <-> (b < a)%Qc.
Proof.
  unfold py_gt. cbn [fcompare Exact.rational]. unfold Exact.compare.
  rewrite (Qcgt_alt a b). destruct (a ?= b)%Qc; split; congruence.
Qed.

Lemma exact_lt_iff (a b : Qc) : py_lt a b = true <-> (a < b)%Qc.
Proof.
  unfold py_lt. cbn [fcompare Exact.rational]. unfold Exact.compare.
  rewrite (Qclt_alt a b). destruct (a ?= b)%Qc; split; congruence.
Qed.

Lemma Qcmult_lt_iff_l (k x y : Qc) :
  (Q2Qc 0 < k)%Qc -> ((k * x < k * y)%Qc <-> (x < y)%Qc).
Proof.
  intros Hk. rewrite (Qcmult_comm k x), (Qcmult_comm k y). split.
  - intros Hlt. destruct (Qclt_le_dec x y) as [Hxy|Hyx]; [exact Hxy|].
    exfalso. apply (Qcle_not_lt (y * k) (x * k)); [|exact Hlt].
    apply Qcmult_le_compat_r; [exact Hyx | now apply Qclt_le_weak].
  - intros Hxy. now apply Qcmult_lt_compat_r.
Qed.

#[global] Instance rational_exact : ExactArith Qc.
Proof.
  split.
  - intros k. apply Qcmult_0_r.
  - intros k x Hk. apply exact_gt_iff in Hk.
    apply Bool.eq_iff_eq_true. rewrite !exact_gt_iff.
    cbn [fmul fzero Exact.rational].
    rewrite <- (Qcmult_0_r k) at 1. now apply Qcmult_lt_iff_l.
  - intros k x y Hk. apply exact_gt_iff in Hk.
    apply Bool.eq_iff_eq_true. rewrite !exact_lt_iff.
    now apply Qcmult_lt_iff_l.
  - intros k x y. cbn [fmul fdiv Exact.rational]. unfold Qcdiv.
    symmetry. apply Qcmult_assoc.
  - intros x. cbn [fdiv fzero Exact.rational]. unfold Qcdiv.
    apply Qcmult_0_l.
  - intros x. cbn [fmean Exact.rational]. unfold Exact.mean, Exact.sum.
    cbn [fold_right List.length]. rewrite Qcplus_0_r.
    change (Exact.of_Z (Z.of_nat 1)) with (Q2Qc 1). unfold Qcdiv.
    change (/ Q2Qc 1)%Qc with (Q2Qc 1). apply Qcmult_1_r.
Qed.

(** The scaling law over the rationals, at one result. *)
Lemma rational_ratio_scaling :
  exists r,
    ratio Scenario.exact_result = Ok r /\
    ratio (scale_candidate (Exact.of_Z 3) Scenario.exact_result)
      = Ok (fmul (Exact.of_Z 3) r).
Proof.
  apply (ratio_scaling_without_rounding Scenario.exact_result (Exact.of_Z 3)).
  reflexivity.
Qed.




(* ================================================================== *)
(** * Properties of the runner *)

Ltac unfold_monad :=
  unfold bind, ret, raise, lift, try_except, exists_, subprocess_run,
    perf_counter_ns.

(** Logs are kept in the form [w ++ [ev1; ...; evn]]. *)
Ltac norm_world := repeat rewrite <- app_assoc; cbn [app].

Lemma range_positive_count (k : Z) :
  List.length (filter (fun i => i >? 0) (range k)) = Z.to_nat (k - 1).
Proof.
  unfold range. destruct (Z.to_nat k) as [|m] eqn:Hk.
  - cbn. lia.
  - cbn [seq map filter]. cbn [Z.of_nat Z.gtb Z.compare].
    assert (Hall : forall start, (0 < start)%nat ->
              filter (fun i => i >? 0) (map Z.of_nat (seq start m))
              = map Z.of_nat (seq start m)).
    { clear Hk. induction m as [|m IH]; intros start Hs; cbn [seq map filter].
      - reflexivity.
      - destruct (Z.gtb_spec (Z.of_nat start) 0) as [_|Hle]; [|lia].
        f_equal. apply IH. lia. }
    rewrite Hall by lia. rewrite length_map, length_seq. lia.
Qed.

Lemma range_length (k : Z) : List.length (range k) = Z.to_nat k.
Proof. unfold range. now rewrite length_map, length_seq. Qed.

Lemma stat_count_app (w1 w2 : World) :
  stat_count (w1 ++ w2) = (stat_count w1 + stat_count w2)%nat.
Proof. unfold stat_count. now rewrite filter_app, length_app. Qed.

Lemma spawn_count_app (w1 w2 : World) :
  spawn_count (w1 ++ w2) = (spawn_count w1 + spawn_count w2)%nat.
Proof. unfold spawn_count. now rewrite filter_app, length_app. Qed.

Lemma clock_count_app (w1 w2 : World) :
  clock_count (w1 ++ w2) = (clock_count w1 + clock_count w2)%nat.
Proof. unfold clock_count. now rewrite filter_app, length_app. Qed.

Section RunnerFacts.
Context {F : Type} `{PyFloat F}.
Variable env : Env.
Variable self : BenchmarkRunner.

(** ** run_binary *)

Lemma run_binary_cases (binary : Path) (w : World) :
  exists t w',
    run_binary env self binary w = (Ok t, w') /\
    run_binary_case env binary w t w'.
Proof.
  unfold run_binary. unfold_monad.
  destruct (path_exists env w binary) eqn:Hex; cbn [negb].
  2:{ eexists _, _. split; [reflexivity|]. now constructor. }
  destruct (run_outcome env (w ++ [EvStat binary]) [path_str binary] 60)
    as [rc0|f0] eqn:Hwarm.
  2:{ destruct f0; cbn; norm_world;
      (eexists _, _; split; [reflexivity|]);
      eapply warm_up_raises; eassumption. }
  norm_world.
  destruct (run_outcome env
              (w ++ [EvStat binary; EvSpawn [path_str binary] 60; EvClock])
              [path_str binary] 60) as [rc|f1] eqn:Htimed.
  2:{ destruct f1; cbn; norm_world;
      (eexists _, _; split; [reflexivity|]);
      eapply timed_run_raises; eassumption. }
  norm_world.
  pose proof (timed_run_completes env binary w rc0 rc Hex Hwarm Htimed) as Hcase.
  destruct ((rc =? 0) || (rc =? 1))%bool; cbn [negb];
    (eexists _, _; split; [reflexivity|]); exact Hcase.
Qed.

(** Each call makes one existence check, and every process it starts is the
    binary itself under the 60-second timeout. *)
Lemma run_binary_case_log (binary : Path) (w : World) (t : option F)
  (w' : World) :
  run_binary_case env binary w t w' ->
  exists log,
    w' = w ++ log /\
    stat_count log = 1%nat /\
    Forall (fun ev => is_spawn ev = true -> ev = EvSpawn [path_str binary] 60)
      log.
Proof.
  intros Hcase. destruct Hcase; eexists; (split; [reflexivity|]);
    (split; [reflexivity|]); unfold run_binary_log;
    repeat constructor; cbn; congruence.
Qed.

(** A call that succeeds returns its time and leaves the complete log. *)
Lemma run_binary_call_succeeds (binary : Path) (w : World) :
  call_succeeds env binary w ->
  run_binary env self binary w
  = (Ok (Some (call_time env binary w)), w ++ run_binary_log binary).
Proof.
  intros (Hthere & (rc0' & Hwarm') & (rc' & Htimed' & Hcode)).
  destruct (run_binary_cases binary w) as (t & w' & Hrun & Hcase).
  rewrite Hrun.
  destruct Hcase as [Hex|f Hex Hwarm|rc0 f Hex Hwarm Htimed
                    |rc0 rc Hex Hwarm Htimed]; try congruence.
  assert (rc' = rc) by congruence. subst rc'.
  destruct Hcode as [-> | ->]; reflexivity.
Qed.

Lemma succeeds_from_later (binary : Path) (w later : World) :
  succeeds_from env binary w -> succeeds_from env binary (w ++ later).
Proof.
  intros Hall more. rewrite <- app_assoc. apply Hall.
Qed.

Lemma succeeds_from_call (binary : Path) (w : World) :
  succeeds_from env binary w -> call_succeeds env binary w.
Proof.
  intros Hall. split; [|split].
  - destruct (Hall []) as [Hthere _]. now rewrite app_nil_r in Hthere.
  - destruct (Hall [EvStat binary]) as [_ (rc & Hrc & _)]. now exists rc.
  - apply Hall.
Qed.

(** When every execution from the start of the phase on succeeds, every
    execution of the phase does. *)
Lemma succeeds_from_phase (binary : Path) (calls : nat) :
  forall w, succeeds_from env binary w -> phase_succeeds env binary calls w.
Proof.
  induction calls as [|calls IH]; intros w Hall; cbn [phase_succeeds].
  - exact I.
  - split; [now apply succeeds_from_call|].
    apply IH. now apply succeeds_from_later.
Qed.

(** ** The timing loop *)

Lemma timed_iteration_value (binary : Path) (i : Z) (times : list F)
  (w : World) :
  exists t w',
    run_binary env self binary w = (Ok t, w') /\
    run_binary_case env binary w t w' /\
    timed_iteration env self binary i times w
      = (Ok (if i >? 0 then times ++ sample_of t else times), w').
Proof.
  destruct (run_binary_cases binary w) as (t & w' & Hrun & Hcase).
  exists t, w'. split; [exact Hrun|]. split; [exact Hcase|].
  unfold timed_iteration, bind. rewrite Hrun.
  destruct t as [t|]; cbn [sample_of]; destruct (i >? 0); unfold ret;
    rewrite ?app_nil_r; reflexivity.
Qed.

(** The loop never raises and never stops early: it makes one existence
    check per element of the range, whatever the executions do. *)
Lemma timing_loop_total (binary : Path) (xs : list Z) :
  forall (times : list F) (w : World),
  exists times' w',
    for_each xs (timed_iteration env self binary) times w = (Ok times', w') /\
    stat_count w' = (stat_count w + List.length xs)%nat /\
    (List.length times'
     <= List.length times + List.length (filter (fun i => i >? 0) xs))%nat.
Proof.
  induction xs as [|i xs IH]; intros times w; cbn [for_each].
  - exists times, w. cbn. repeat split; lia.
  - destruct (timed_iteration_value binary i times w)
      as (t & w1 & _ & Hcase & Hiter).
    unfold bind at 1. rewrite Hiter.
    destruct (IH (if i >? 0 then times ++ sample_of t else times) w1)
      as (times' & w' & Hloop & Hstat & Hlen).
    exists times', w'. split; [exact Hloop|].
    destruct (run_binary_case_log _ _ _ _ Hcase) as (log & -> & Hone & _).
    rewrite stat_count_app, Hone in Hstat.
    split; [cbn [List.length]; lia|].
    cbn [filter]. destruct (i >? 0); cbn [List.length].
    + rewrite length_app in Hlen. destruct t; cbn [sample_of List.length] in Hlen; lia.
    + lia.
Qed.

(** When every execution succeeds, each pass after the first appends the
    time of its call and the log of one complete [run_binary] call. *)
Lemma timing_loop_all_succeed (binary : Path) (calls : nat) :
  forall (first : nat) (times : list F) (w : World),
  (0 < first)%nat ->
  phase_succeeds env binary calls w ->
  for_each (map Z.of_nat (seq first calls)) (timed_iteration env self binary)
    times w
  = (Ok (times ++ call_times env binary calls w),
     w ++ List.concat (repeat (run_binary_log binary) calls)).
Proof.
  induction calls as [|calls IH]; intros first times w Hfirst Hphase;
    cbn [seq map for_each call_times repeat List.concat].
  - unfold ret. now rewrite !app_nil_r.
  - destruct Hphase as [Hcall Hrest].
    unfold bind at 1. unfold timed_iteration at 1. unfold bind at 1.
    rewrite (run_binary_call_succeeds binary w Hcall).
    destruct (Z.gtb_spec (Z.of_nat first) 0) as [_|Hle]; [|lia].
    unfold ret at 1.
    rewrite (IH (S first) (times ++ [call_time env binary w])
               (w ++ run_binary_log binary)) by (auto; lia).
    now rewrite <- !app_assoc.
Qed.

(** The first pass discards the time of its call. *)
Lemma timed_runs_all_succeed (binary : Path) (actual_iterations : Z)
  (w : World) :
  phase_succeeds env binary (Z.to_nat actual_iterations) w ->
  timed_runs env self binary actual_iterations w
  = (Ok (tl (call_times env binary (Z.to_nat actual_iterations) w)),
     w ++ List.concat (repeat (run_binary_log binary)
                         (Z.to_nat actual_iterations))).
Proof.
  unfold timed_runs, range.
  destruct (Z.to_nat actual_iterations) as [|calls];
    cbn [seq map for_each call_times repeat List.concat tl phase_succeeds].
  - intros _. unfold ret. now rewrite app_nil_r.
  - intros [Hcall Hrest].
    unfold bind at 1. unfold timed_iteration at 1. unfold bind at 1.
    rewrite (run_binary_call_succeeds binary w Hcall).
    cbn [Z.of_nat Z.gtb Z.compare]. unfold ret at 1.
    rewrite (timing_loop_all_succeed binary calls 1 [] _ Nat.lt_0_1 Hrest).
    now rewrite <- app_assoc.
Qed.

Lemma call_times_length (binary : Path) (calls : nat) :
  forall w, List.length (call_times (F:=F) env binary calls w) = calls.
Proof.
  induction calls as [|calls IH]; intros w; cbn [call_times List.length].
  - reflexivity.
  - now rewrite IH.
Qed.

Lemma run_binary_log_counts (binary : Path) (k : nat) :
  spawn_count (List.concat (repeat (run_binary_log binary) k)) = (2 * k)%nat /\
  clock_count (List.concat (repeat (run_binary_log binary) k)) = (2 * k)%nat /\
  stat_count (List.concat (repeat (run_binary_log binary) k)) = k.
Proof.
  induction k as [|k (IHs & IHc & IHt)]; cbn [repeat List.concat].
  - repeat split.
  - rewrite spawn_count_app, clock_count_app, stat_count_app, IHs, IHc, IHt.
    cbn. repeat split; lia.
Qed.


(** ** run_benchmark *)

(** The steps of a [run_benchmark] call that returns. *)
Lemma run_benchmark_inv (name category opt_level : string) (w w' : World)
  (r : BenchmarkResult F) :
  run_benchmark env self name category opt_level w = (Ok r, w') ->
  exists config w1 w2 w3,
    dict_get OPT_CONFIGS opt_level = Some config /\
    compile_fcx env self (fcx_src_of self name)
      (fcx_bin_of self name opt_level) (fcx_flags config) w
      = (Ok (fcx_compiled r), w1) /\
    compile_c env self (c_src_of self name)
      (c_bin_of self name opt_level) (c_flags config) w1
      = (Ok (c_compiled r), w2) /\
    (if fcx_compiled r
     then timed_runs env self (fcx_bin_of self name opt_level)
            (iterations self + 2)
     else ret []) w2 = (Ok (fcx_times r), w3) /\
    (if c_compiled r
     then timed_runs env self (c_bin_of self name opt_level)
            (iterations self + 2)
     else ret []) w3 = (Ok (c_times r), w').
Proof.
  unfold run_benchmark, bind, lift, dict_item.
  destruct (dict_get OPT_CONFIGS opt_level) as [config|]; [|discriminate].
  fold (fcx_src_of self name) (c_src_of self name)
       (fcx_bin_of self name opt_level) (c_bin_of self name opt_level).
  destruct (compile_fcx env self _ _ _ w) as [[fcx_ok|e] w1] eqn:Hfcx;
    [|discriminate].
  destruct (compile_c env self _ _ _ w1) as [[c_ok|e] w2] eqn:Hc;
    [|discriminate].
  match goal with
  | |- context [(if fcx_ok then ?a else ?b) w2] =>
      destruct ((if fcx_ok then a else b) w2) as [[ft|e] w3] eqn:Hft;
      [|discriminate]
  end.
  match goal with
  | |- context [(if c_ok then ?a else ?b) w3] =>
      destruct ((if c_ok then a else b) w3) as [[ct|e] w4] eqn:Hct;
      [|discriminate]
  end.
  unfold ret. intros Heq. injection Heq as <- <-. cbn.
  exists config, w1, w2, w3. repeat split; assumption.
Qed.

(** The two measurement phases of a [run_benchmark] call that returns, at
    the logs at which they start. *)
Lemma run_benchmark_phases (name category opt_level : string)
  (config : OptConfig) (w w' : World) (r : BenchmarkResult F) :
  dict_get OPT_CONFIGS opt_level = Some config ->
  run_benchmark env self name category opt_level w = (Ok r, w') ->
  (if fcx_compiled r
   then timed_runs env self (fcx_bin_of self name opt_level)
          (iterations self + 2)
   else ret []) (candidate_phase_start env self name opt_level config w)
  = (Ok (fcx_times r),
     reference_phase_start (F:=F) env self name opt_level config w) /\
  (if c_compiled r
   then timed_runs env self (c_bin_of self name opt_level)
          (iterations self + 2)
   else ret []) (reference_phase_start (F:=F) env self name opt_level config w)
  = (Ok (c_times r), w').
Proof.
  intros Hconfig Hrun.
  destruct (run_benchmark_inv _ _ _ _ _ _ Hrun)
    as (config' & w1 & w2 & w3 & Hconfig' & Hfcx & Hc & Hft & Hct).
  assert (config' = config) by congruence. subst config'.
  assert (Hstart : candidate_phase_start env self name opt_level config w = w2).
  { unfold candidate_phase_start. rewrite Hfcx. cbn [snd]. now rewrite Hc. }
  assert (Hnext :
    reference_phase_start (F:=F) env self name opt_level config w = w3).
  { unfold reference_phase_start. rewrite Hfcx, Hstart. cbn [fst].
    destruct (fcx_compiled r).
    - now rewrite Hft.
    - unfold ret in Hft. now injection Hft as _ <-. }
  rewrite Hnext, Hstart. now split.
Qed.

Lemma length_tl_call_times (binary : Path) (w : World) :
  1 <= iterations self ->
  List.length (tl (call_times (F:=F) env binary
                     (Z.to_nat (iterations self + 2)) w))
  = (Z.to_nat (iterations self) + 1)%nat.
Proof.
  intros Hn.
  pose proof (call_times_length binary (Z.to_nat (iterations self + 2)) w)
    as Hlen.
  destruct (call_times env binary (Z.to_nat (iterations self + 2)) w);
    cbn [tl List.length] in *; lia.
Qed.

(** C1, as the code has it: in a measurement phase in which every execution
    succeeds, the loop over [range(iterations + 2)] records
    [iterations + 1] samples, one for every pass but the first; this is the
    length of the sample sequence of each built side of the
    [BenchmarkResult] whose phase, which starts after the compile steps,
    has no failing execution. *)
Theorem sample_count_all_succeed :
  1 <= iterations self ->
  (forall binary w,
     phase_succeeds env binary (Z.to_nat (iterations self + 2)) w ->
     exists times w',
       timed_runs env self binary (iterations self + 2) w = (Ok times, w') /\
       List.length times = (Z.to_nat (iterations self) + 1)%nat) /\
  (forall name category opt_level config w r w',
     dict_get OPT_CONFIGS opt_level = Some config ->
     run_benchmark env self name category opt_level w = (Ok r, w') ->
     (fcx_compiled r = true ->
      phase_succeeds env (fcx_bin_of self name opt_level)
        (Z.to_nat (iterations self + 2))
        (candidate_phase_start env self name opt_level config w) ->
      List.length (fcx_times r) = (Z.to_nat (iterations self) + 1)%nat) /\
     (c_compiled r = true ->
      phase_succeeds env (c_bin_of self name opt_level)
        (Z.to_nat (iterations self + 2))
        (reference_phase_start (F:=F) env self name opt_level config w) ->
      List.length (c_times r) = (Z.to_nat (iterations self) + 1)%nat)).
Proof.
  intros Hn. split.
  - intros binary w Hphase. eexists _, _.
    split; [now apply timed_runs_all_succeed|].
    now apply length_tl_call_times.
  - intros name category opt_level config w r w' Hconfig Hrun.
    destruct (run_benchmark_phases _ _ _ _ _ _ _ Hconfig Hrun) as [Hft Hct].
    split; intros Hbuilt Hphase.
    + rewrite Hbuilt, (timed_runs_all_succeed _ _ _ Hphase) in Hft.
      injection Hft as <- _. now apply length_tl_call_times.
    + rewrite Hbuilt, (timed_runs_all_succeed _ _ _ Hphase) in Hct.
      injection Hct as <- _. now apply length_tl_call_times.
Qed.

(** C3, as the code has it: a measurement phase in which every execution
    succeeds consists of [iterations + 2] calls of [run_binary]; each call
    performs an existence check, one untimed warm-up execution and one
    execution between two clock readings, so that there are
    [2 * (iterations + 2)] executions in all, half of them warm-ups; the
    samples are the times of the calls without the time of the first
    call. *)
Theorem warm_up_before_every_timed_run (binary : Path) (w : World) :
  phase_succeeds env binary (Z.to_nat (iterations self + 2)) w ->
  timed_runs env self binary (iterations self + 2) w
  = (Ok (tl (call_times env binary (Z.to_nat (iterations self + 2)) w)),
     w ++ List.concat (repeat (run_binary_log binary)
                         (Z.to_nat (iterations self + 2)))) /\
  List.length (call_times (F:=F) env binary
                 (Z.to_nat (iterations self + 2)) w)
  = Z.to_nat (iterations self + 2) /\
  spawn_count
    (List.concat (repeat (run_binary_log binary)
                    (Z.to_nat (iterations self + 2))))
  = (2 * Z.to_nat (iterations self + 2))%nat /\
  clock_count
    (List.concat (repeat (run_binary_log binary)
                    (Z.to_nat (iterations self + 2))))
  = (2 * Z.to_nat (iterations self + 2))%nat /\
  stat_count
    (List.concat (repeat (run_binary_log binary)
                    (Z.to_nat (iterations self + 2))))
  = Z.to_nat (iterations self + 2).
Proof.
  intros Hphase.
  split; [now apply timed_runs_all_succeed|].
  split; [apply call_times_length|].
  apply run_binary_log_counts.
Qed.

(** ** The compile steps *)

Ltac build_cases src cmd w :=
  unfold_monad;
  destruct (path_exists env w src) eqn:Hex; cbn [negb];
  [ destruct (run_outcome env (w ++ [EvStat src]) cmd 30) as [rc|[ | | ]] eqn:Hrun;
    cbn [exn_of_failure is_TimeoutExpired is_FileNotFoundError orb fst snd]
  | cbn [fst snd] ].

Ltac build_solve :=
  repeat match goal with
    | |- _ /\ _ => split
    | |- _ <-> _ => split
    | |- _ -> _ => intro
    | Hyp : _ /\ _ |- _ => destruct Hyp
    | Hyp : _ \/ _ |- _ => destruct Hyp
    | Hyp : Ok (_ =? 0) = Ok true |- _ =>
        injection Hyp as Hyp; apply Z.eqb_eq in Hyp; subst
    | Hyp : Completed _ = Completed _ |- _ => injection Hyp as Hyp; subst
    end;
  try congruence; try reflexivity.

Lemma compile_fcx_contract (src out : Path) (opt_flag : string) :
  build_contract env (compile_fcx env self src out opt_flag) src
    [path_str (fcx_compiler self); opt_flag; path_str src; "-o"; path_str out].
Proof.
  intros w w1. subst w1. unfold compile_fcx.
  build_cases src [path_str (fcx_compiler self); opt_flag; path_str src; "-o";
                   path_str out] w; build_solve.
Qed.

Lemma compile_c_contract (src out : Path) (opt_flags : string) :
  build_contract env (compile_c env self src out opt_flags) src
    ([c_compiler self] ++ split opt_flags ++ [path_str src; "-o"; path_str out]).
Proof.
  intros w w1. subst w1. unfold compile_c.
  build_cases src ([c_compiler self] ++ split opt_flags
                   ++ [path_str src; "-o"; path_str out]) w; build_solve.
Qed.

(** What the two compile steps do when the lookup of the source answers: a
    step returns true if and only if the source exists and the toolchain
    process completes with status 0 under the 30-second timeout; without
    the source it returns false and starts no process; a timeout and a
    missing executable yield false; any other [OSError] of the spawn leaves
    the step. *)
Lemma compile_contracts (src out : Path) (flags : string) :
  build_contract env (compile_fcx env self src out flags) src
    [path_str (fcx_compiler self); flags; path_str src; "-o"; path_str out] /\
  build_contract env (compile_c env self src out flags) src
    ([c_compiler self] ++ split flags ++ [path_str src; "-o"; path_str out]).
Proof. split; [apply compile_fcx_contract | apply compile_c_contract]. Qed.

Lemma timed_runs_total (binary : Path) (k : Z) (w : World) :
  exists times w',
    timed_runs env self binary k w = (Ok times, w') /\
    stat_count w' = (stat_count w + Z.to_nat k)%nat /\
    (List.length times <= Z.to_nat (k - 1))%nat.
Proof.
  unfold timed_runs.
  destruct (timing_loop_total binary (range k) [] w)
    as (times & w' & Hloop & Hstat & Hlen).
  exists times, w'. rewrite range_length in Hstat.
  rewrite range_positive_count in Hlen. cbn [List.length] in Hlen.
  repeat split; [exact Hloop | exact Hstat | lia].
Qed.

(** ** run_all *)

Lemma filter_none {A} (f : A -> bool) (l : list A) :
  (forall x, In x l -> f x = false) -> filter f l = [].
Proof.
  induction l as [|x l IH]; intros Hall; cbn [filter].
  - reflexivity.
  - rewrite (Hall x (or_introl eq_refl)). apply IH.
    intros y Hy. apply Hall. now right.
Qed.

(** C8, as the code has it: the core validates neither input.  A category
    filter that matches no catalog entry makes [run_all] return an empty
    list, with nothing compiled or run; with an iteration count [n <= 0]
    the loop still runs over [range(n + 2)], so that a side gets at most one
    sample, and none at all from [n = -1] down. *)
Theorem no_validation_in_core :
  (forall opt_level config category w,
     dict_get OPT_CONFIGS opt_level = Some config ->
     ~ In category (map snd BENCHMARKS) ->
     run_all (F:=F) env self opt_level (Some category) w = (Ok [], w)) /\
  (forall binary w,
     iterations self <= 0 ->
     exists times w',
       timed_runs env self binary (iterations self + 2) w = (Ok times, w') /\
       stat_count w' = (stat_count w + Z.to_nat (iterations self + 2))%nat /\
       (List.length times <= Z.to_nat (iterations self + 1))%nat /\
       (List.length times <= 1)%nat).
Proof.
  split.
  - intros opt_level config category w Hconfig Hunknown.
    unfold run_all, print_header, bind, lift, dict_item, ret.
    rewrite Hconfig.
    rewrite filter_none; [reflexivity|].
    intros entry Hin. cbn [selected]. apply String.eqb_neq.
    intros <-. apply Hunknown. now apply in_map.
  - intros binary w Hn.
    destruct (timed_runs_total binary (iterations self + 2) w)
      as (times & w' & Hloop & Hstat & Hlen).
    exists times, w'.
    replace (iterations self + 2 - 1) with (iterations self + 1) in Hlen by lia.
    repeat split; [exact Hloop | exact Hstat | exact Hlen | lia].
Qed.

End RunnerFacts.

(* ================================================================== *)
(** * The runner on concrete scenarios *)

Lemma all_fine_succeeds (binary : Path) (w : World) :
  succeeds_from Scenario.all_fine binary w.
Proof.
  intros later. split; [reflexivity|].
  exists 0. split; [reflexivity | now left].
Qed.

Lemma existsb_app_l {A} (f : A -> bool) (l later : list A) :
  existsb f l = true -> existsb f (l ++ later) = true.
Proof. intros Hl. now rewrite existsb_app, Hl. Qed.

(** In a fresh checkout, a binary runs from the moment it was built. *)
Lemma fresh_build_succeeds (binary : Path) (w : World) :
  Scenario.was_built w binary = true ->
  succeeds_from Scenario.fresh_build binary w.
Proof.
  intros Hbuilt later. split.
  - cbn [path_exists Scenario.fresh_build]. unfold Scenario.was_built.
    rewrite existsb_app_l by exact Hbuilt. apply orb_true_r.
  - exists 0. split; [reflexivity | now left].
Qed.

(** C1 fails for one configured iteration: every execution succeeds, both
    sides are built, and each sample sequence has two elements. *)
Lemma two_samples_for_one_iteration :
  iterations Scenario.one_iteration = 1 /\
  succeeds_from Scenario.all_fine
    (fcx_bin_of Scenario.one_iteration "07_loop_sum" "O2") [] /\
  succeeds_from Scenario.all_fine
    (c_bin_of Scenario.one_iteration "07_loop_sum" "O2") [] /\
  exists r w,
    run_benchmark (F:=float) Scenario.all_fine Scenario.one_iteration
      "07_loop_sum" "loop" "O2" [] = (Ok r, w) /\
    fcx_compiled r = true /\
    c_compiled r = true /\
    List.length (fcx_times r) = 2%nat /\
    List.length (c_times r) = 2%nat /\
    List.length (fcx_times r) <> Z.to_nat (iterations Scenario.one_iteration).
Proof.
  split; [reflexivity|].
  split; [apply all_fine_succeeds|].
  split; [apply all_fine_succeeds|].
  eexists _, _. split; [vm_compute; reflexivity|].
  cbn. repeat split. lia.
Qed.

(** In a fresh checkout the candidate binary is not there before the
    compile step has run; with five configured iterations the candidate
    side of the result has six samples. *)
Lemma sample_count_all_succeed_witness :
  1 <= iterations Scenario.five_iterations /\
  path_exists Scenario.fresh_build []
    (fcx_bin_of Scenario.five_iterations "07_loop_sum" "O2") = false /\
  exists r w',
    run_benchmark (F:=float) Scenario.fresh_build Scenario.five_iterations
      "07_loop_sum" "loop" "O2" [] = (Ok r, w') /\
    fcx_compiled r = true /\
    phase_succeeds Scenario.fresh_build
      (fcx_bin_of Scenario.five_iterations "07_loop_sum" "O2")
      (Z.to_nat (iterations Scenario.five_iterations + 2))
      (candidate_phase_start Scenario.fresh_build Scenario.five_iterations
         "07_loop_sum" "O2"
         {| fcx_flags := "-O2"; c_flags := "-O2";
            desc := "Standard optimizations" |} []) /\
    List.length (fcx_times r)
    = (Z.to_nat (iterations Scenario.five_iterations) + 1)%nat.
Proof.
  assert (Hn : 1 <= iterations Scenario.five_iterations) by (cbn; lia).
  split; [exact Hn|].
  split; [vm_compute; reflexivity|].
  destruct (run_benchmark (F:=float) Scenario.fresh_build
              Scenario.five_iterations "07_loop_sum" "loop" "O2" [])
    as [[r|e] w'] eqn:Hrun; [|vm_compute in Hrun; discriminate].
  exists r, w'. split; [reflexivity|].
  assert (Hbuilt : fcx_compiled r = true).
  { pose proof Hrun as Hval. vm_compute in Hval. now injection Hval as <- _. }
  assert (Hphase :
    phase_succeeds Scenario.fresh_build
      (fcx_bin_of Scenario.five_iterations "07_loop_sum" "O2")
      (Z.to_nat (iterations Scenario.five_iterations + 2))
      (candidate_phase_start Scenario.fresh_build Scenario.five_iterations
         "07_loop_sum" "O2"
         {| fcx_flags := "-O2"; c_flags := "-O2";
            desc := "Standard optimizations" |} [])).
  { apply succeeds_from_phase, fresh_build_succeeds. vm_compute. reflexivity. }
  split; [exact Hbuilt|]. split; [exact Hphase|].
  exact (proj1 (proj2 (sample_count_all_succeed (F:=float)
                         Scenario.fresh_build Scenario.five_iterations Hn)
                  "07_loop_sum" "loop" "O2" _ [] r w' eq_refl Hrun)
           Hbuilt Hphase).
Defined.

(** C3 fails for one configured iteration: the measurement phase is three
    calls of [run_binary], each with its own warm-up execution, six
    executions in all, where the claim has one warm-up and one timed
    execution. *)
Lemma six_executions_for_one_iteration :
  iterations Scenario.one_iteration = 1 /\
  succeeds_from Scenario.all_fine Scenario.loop_sum_bin [] /\
  snd (timed_runs (F:=float) Scenario.all_fine Scenario.one_iteration
         Scenario.loop_sum_bin (iterations Scenario.one_iteration + 2) [])
  = run_binary_log Scenario.loop_sum_bin
    ++ run_binary_log Scenario.loop_sum_bin
    ++ run_binary_log Scenario.loop_sum_bin /\
  spawn_count
    (snd (timed_runs (F:=float) Scenario.all_fine Scenario.one_iteration
            Scenario.loop_sum_bin (iterations Scenario.one_iteration + 2) []))
  = 6%nat /\
  6%nat <> (1 + Z.to_nat (iterations Scenario.one_iteration))%nat.
Proof.
  split; [reflexivity|].
  split; [apply all_fine_succeeds|].
  split; [vm_compute; reflexivity|].
  split; [vm_compute; reflexivity|].
  cbn. lia.
Qed.

(** The candidate phase of a fresh checkout, which starts after the two
    compile steps: seven calls, fourteen executions, and six samples, the
    times of the second to the seventh call. *)
Lemma warm_up_before_every_timed_run_witness :
  phase_succeeds Scenario.fresh_build Scenario.loop_sum_bin
    (Z.to_nat (iterations Scenario.five_iterations + 2))
    Scenario.after_build /\
  timed_runs (F:=float) Scenario.fresh_build Scenario.five_iterations
    Scenario.loop_sum_bin (iterations Scenario.five_iterations + 2)
    Scenario.after_build
  = (Ok (tl (call_times Scenario.fresh_build Scenario.loop_sum_bin
               (Z.to_nat (iterations Scenario.five_iterations + 2))
               Scenario.after_build)),
     Scenario.after_build
     ++ List.concat (repeat (run_binary_log Scenario.loop_sum_bin)
                       (Z.to_nat (iterations Scenario.five_iterations + 2)))) /\
  spawn_count
    (List.concat (repeat (run_binary_log Scenario.loop_sum_bin)
                    (Z.to_nat (iterations Scenario.five_iterations + 2))))
  = (2 * Z.to_nat (iterations Scenario.five_iterations + 2))%nat.
Proof.
  assert (Hphase :
    phase_succeeds Scenario.fresh_build Scenario.loop_sum_bin
      (Z.to_nat (iterations Scenario.five_iterations + 2))
      Scenario.after_build).
  { apply succeeds_from_phase, fresh_build_succeeds. vm_compute. reflexivity. }
  split; [exact Hphase|].
  destruct (warm_up_before_every_timed_run (F:=float) Scenario.fresh_build
              Scenario.five_iterations Scenario.loop_sum_bin
              Scenario.after_build Hphase) as (Hruns & _ & Hspawns & _).
  split; [exact Hruns | exact Hspawns].
Defined.

(** C5: with a source that exists and a compiler that is present but cannot
    be executed, [subprocess.run] raises a [PermissionError]; it leaves
    [compile_fcx] and [compile_c], where the claim has them return false.
    [run_binary], which makes the same call on a binary that cannot be
    executed, catches the exception and returns [None]. *)
Lemma compile_propagates_os_error :
  path_exists Scenario.not_executable []
    (fcx_src_of Scenario.one_iteration "07_loop_sum") = true /\
  run_outcome Scenario.not_executable
    [EvStat (fcx_src_of Scenario.one_iteration "07_loop_sum")]
    (fcx_cmd_of Scenario.one_iteration "07_loop_sum" "O2"
       {| fcx_flags := "-O2"; c_flags := "-O2";
          desc := "Standard optimizations" |}) 30
  = Failed OSFailure /\
  compile_fcx Scenario.not_executable Scenario.one_iteration
    (fcx_src_of Scenario.one_iteration "07_loop_sum")
    (fcx_bin_of Scenario.one_iteration "07_loop_sum" "O2") "-O2" []
  = (Raise OtherOSError,
     [EvStat (fcx_src_of Scenario.one_iteration "07_loop_sum");
      EvSpawn (fcx_cmd_of Scenario.one_iteration "07_loop_sum" "O2"
                 {| fcx_flags := "-O2"; c_flags := "-O2";
                    desc := "Standard optimizations" |}) 30]) /\
  fst (compile_c Scenario.not_executable Scenario.one_iteration
         (c_src_of Scenario.one_iteration "07_loop_sum")
         (c_bin_of Scenario.one_iteration "07_loop_sum" "O2") "-O2" [])
  = Raise OtherOSError /\
  fst (run_binary (F:=float) Scenario.not_executable Scenario.one_iteration
         (fcx_bin_of Scenario.one_iteration "07_loop_sum" "O2") [])
  = Ok None.
Proof. repeat split. Qed.



(** C7: the candidate source is missing and the reference compiler is
    present but cannot be executed.  No candidate process is started, the
    [PermissionError] of the [clang] spawn leaves [compile_c], and
    [run_benchmark] raises where the claim has it return a result with the
    candidate side empty. *)
Lemma missing_candidate_can_raise :
  path_exists Scenario.no_candidate_no_clang []
    (fcx_src_of Scenario.one_iteration "07_loop_sum") = false /\
  dict_get OPT_CONFIGS "O2"
  = Some {| fcx_flags := "-O2"; c_flags := "-O2";
            desc := "Standard optimizations" |} /\
  run_benchmark (F:=float) Scenario.no_candidate_no_clang
    Scenario.one_iteration "07_loop_sum" "loop" "O2" []
  = (Raise OtherOSError,
     [EvStat (fcx_src_of Scenario.one_iteration "07_loop_sum");
      EvStat (c_src_of Scenario.one_iteration "07_loop_sum");
      EvSpawn (c_cmd_of Scenario.one_iteration "07_loop_sum" "O2"
                 {| fcx_flags := "-O2"; c_flags := "-O2";
                    desc := "Standard optimizations" |}) 30]).
Proof. repeat split. Qed.

(** C8 fails: an unknown category filter yields an empty result list and no
    error, and the iteration counts 0 and -3 are accepted, giving one sample
    and no sample for sides that were built. *)
Lemma invalid_configuration_accepted :
  ~ In "sorting" (map snd BENCHMARKS) /\
  run_all (F:=float) Scenario.all_fine Scenario.five_iterations "O2"
    (Some "sorting") [] = (Ok [], []) /\
  iterations Scenario.no_iterations = 0 /\
  (exists r w,
     run_benchmark (F:=float) Scenario.all_fine Scenario.no_iterations
       "07_loop_sum" "loop" "O2" [] = (Ok r, w) /\
     fcx_compiled r = true /\ List.length (fcx_times r) = 1%nat) /\
  iterations Scenario.negative_iterations = -3 /\
  (exists r w,
     run_benchmark (F:=float) Scenario.all_fine Scenario.negative_iterations
       "07_loop_sum" "loop" "O2" [] = (Ok r, w) /\
     fcx_compiled r = true /\ fcx_times r = []).
Proof.
  split.
  { cbn. intuition discriminate. }
  split; [reflexivity|].
  split; [reflexivity|].
  split.
  { eexists _, _. split; [vm_compute; reflexivity|]. split; reflexivity. }
  split; [reflexivity|].
  eexists _, _. split; [vm_compute; reflexivity|]. split; reflexivity.
Qed.

Lemma no_validation_in_core_witness :
  (dict_get OPT_CONFIGS "O2"
   = Some {| fcx_flags := "-O2"; c_flags := "-O2";
             desc := "Standard optimizations" |} /\
   ~ In "sorting" (map snd BENCHMARKS) /\
   run_all (F:=float) Scenario.all_fine Scenario.five_iterations "O2"
     (Some "sorting") [] = (Ok [], [])) /\
  (iterations Scenario.no_iterations <= 0 /\
   exists times w',
     timed_runs (F:=float) Scenario.all_fine Scenario.no_iterations
       Scenario.loop_sum_bin (iterations Scenario.no_iterations + 2) []
     = (Ok times, w') /\
     stat_count w'
     = (stat_count [] + Z.to_nat (iterations Scenario.no_iterations + 2))%nat /\
     (List.length times <= Z.to_nat (iterations Scenario.no_iterations + 1))%nat /\
     (List.length times <= 1)%nat).
Proof.
  assert (Hunknown : ~ In "sorting" (map snd BENCHMARKS))
    by (cbn; intuition discriminate).
  assert (Hn : iterations Scenario.no_iterations <= 0) by (cbn; lia).
  split.
  - split; [reflexivity|]. split; [exact Hunknown|].
    exact (proj1 (no_validation_in_core (F:=float) Scenario.all_fine
                    Scenario.five_iterations)
             "O2" _ "sorting" [] eq_refl Hunknown).
  - split; [exact Hn|].
    exact (proj2 (no_validation_in_core (F:=float) Scenario.all_fine
                    Scenario.no_iterations)
             Scenario.loop_sum_bin [] Hn).
Defined.

(* ================================================================== *)
(** * Properties of the category table *)

Section DictFacts.
Context {V : Type}.

Lemma dict_get_set_same (d : list (string * V)) (key : string) (v : V) :
  dict_get (dict_set d key v) key = Some v.
Proof.
  induction d as [|[k v0] d IH]; cbn [dict_set dict_get].
  - now rewrite String.eqb_refl.
  - destruct (String.eqb k key) eqn:Hk; cbn [dict_get]; rewrite Hk; auto.
Qed.

Lemma dict_get_set_other (d : list (string * V)) (key key' : string) (v : V) :
  key <> key' -> dict_get (dict_set d key v) key' = dict_get d key'.
Proof.
  intros Hneq. induction d as [|[k v0] d IH]; cbn [dict_set dict_get].
  - apply String.eqb_neq in Hneq. now rewrite Hneq.
  - destruct (String.eqb k key) eqn:Hk; cbn [dict_get].
    + apply String.eqb_eq in Hk. subst k.
      apply String.eqb_neq in Hneq. now rewrite Hneq.
    + now rewrite IH.
Qed.

Lemma dict_get_none (d : list (string * V)) (key : string) :
  dict_get d key = None <-> ~ In key (map fst d).
Proof.
  induction d as [|[k v0] d IH]; cbn [dict_get map fst In].
  - tauto.
  - destruct (String.eqb_spec k key) as [->|Hneq].
    + split; [discriminate | tauto].
    + rewrite IH. tauto.
Qed.

Lemma dict_set_keys (d : list (string * V)) (key : string) (v : V) :
  map fst (dict_set d key v)
  = if dict_mem d key then map fst d else map fst d ++ [key].
Proof.
  unfold dict_mem.
  induction d as [|[k v0] d IH]; cbn [dict_set dict_get map fst app].
  - reflexivity.
  - destruct (String.eqb k key) eqn:Hk; cbn [map fst].
    + reflexivity.
    + rewrite IH. destruct (dict_get d key); reflexivity.
Qed.

Lemma dict_set_nodup (d : list (string * V)) (key : string) (v : V) :
  NoDup (map fst d) -> NoDup (map fst (dict_set d key v)).
Proof.
  intros Hnd. rewrite dict_set_keys. unfold dict_mem.
  destruct (dict_get d key) eqn:Hget; [exact Hnd|].
  apply dict_get_none in Hget.
  apply NoDup_rev in Hnd. rewrite <- (rev_involutive (map fst d ++ [key])).
  apply NoDup_rev. rewrite rev_app_distr. cbn [rev app].
  constructor; [|exact Hnd]. now rewrite <- in_rev.
Qed.

Lemma dict_get_in (d : list (string * V)) (key : string) (v : V) :
  NoDup (map fst d) -> In (key, v) d -> dict_get d key = Some v.
Proof.
  induction d as [|[k v0] d IH]; cbn [map fst In dict_get]; intros Hnd Hin.
  - contradiction.
  - inversion Hnd as [|? ? Hnotin Hnd']; subst.
    destruct Hin as [Heq|Hin].
    + injection Heq as -> ->. now rewrite String.eqb_refl.
    + destruct (String.eqb_spec k key) as [->|_].
      * exfalso. apply Hnotin. now apply (in_map fst) in Hin.
      * now apply IH.
Qed.

Lemma in_insert_item (item other : string * V) (items : list (string * V)) :
  In other (insert_item item items) <-> other = item \/ In other items.
Proof.
  induction items as [|x items IH]; cbn [insert_item In].
  - intuition.
  - destruct (String.ltb (fst item) (fst x)); cbn [In]; [intuition|].
    rewrite IH. intuition.
Qed.

Lemma in_sorted (other : string * V) (items : list (string * V)) :
  In other (sorted items) <-> In other items.
Proof.
  unfold sorted. induction items as [|x items IH]; cbn [fold_right In].
  - tauto.
  - rewrite in_insert_item, IH. intuition.
Qed.



End DictFacts.

Section SummaryFacts.
Context {F : Type} `{PyFloat F}.

Lemma group_step_grouped (seen : list (BenchmarkResult F))
  (categories : list (string * list (BenchmarkResult F)))
  (r : BenchmarkResult F) :
  grouped seen categories ->
  exists categories',
    group_step categories r = Ok categories' /\
    grouped (seen ++ [r]) categories'.
Proof.
  intros [Hnd Hget]. unfold group_step, dict_mem, dict_item.
  pose proof (Hget (category r)) as Hcat.
  set (old := filter (in_category (category r)) seen) in *.
  assert (Hinv : forall members categories1,
             NoDup (map fst categories1) ->
             (forall cat, cat <> category r ->
                          dict_get categories1 cat = dict_get categories cat) ->
             members = old ->
             grouped (seen ++ [r])
               (dict_set categories1 (category r) (members ++ [r]))).
  { intros members categories1 Hnd1 Hother ->. split.
    - now apply dict_set_nodup.
    - intros cat. rewrite filter_app. cbn [filter]. unfold in_category at 2.
      destruct (String.eqb_spec (category r) cat) as [<-|Hneq].
      + rewrite dict_get_set_same. fold old.
        destruct old; reflexivity.
      + rewrite dict_get_set_other by exact Hneq.
        rewrite app_nil_r, Hother by congruence. apply Hget. }
  destruct (dict_get categories (category r)) as [members|] eqn:Hmem;
    cbn [negb].
  - rewrite Hmem. cbn [rbind]. eexists. split; [reflexivity|].
    apply Hinv; [exact Hnd | reflexivity |].
    destruct old; congruence.
  - rewrite dict_get_set_same. cbn [rbind]. eexists. split; [reflexivity|].
    apply Hinv.
    + now apply dict_set_nodup.
    + intros cat Hneq. apply dict_get_set_other. congruence.
    + destruct old; congruence.
Qed.

Lemma group_from_grouped (results : list (BenchmarkResult F)) :
  forall seen categories,
    grouped seen categories ->
    exists categories',
      group_from results categories = Ok categories' /\
      grouped (seen ++ results) categories'.
Proof.
  induction results as [|r results IH]; intros seen categories Hgrouped;
    cbn [group_from].
  - exists categories. now rewrite app_nil_r.
  - destruct (group_step_grouped seen categories r Hgrouped)
      as (categories1 & Hstep & Hgrouped1).
    rewrite Hstep. cbn [rbind].
    destruct (IH (seen ++ [r]) categories1 Hgrouped1)
      as (categories' & Hfrom & Hgrouped').
    exists categories'. split; [exact Hfrom|].
    now rewrite <- app_assoc in Hgrouped'.
Qed.

Lemma group_by_category_grouped (results : list (BenchmarkResult F)) :
  exists categories,
    group_by_category results = Ok categories /\ grouped results categories.
Proof.
  apply (group_from_grouped results [] []).
  split; [constructor | reflexivity].
Qed.

Lemma positive_values_minimums (get : BenchmarkResult F -> result F)
  (times : BenchmarkResult F -> list F) (rs : list (BenchmarkResult F)) :
  (forall r, get r = Ok (min_or_zero (times r))) ->
  positive_values get rs = Ok (positive_minimums times rs).
Proof.
  intros Hget. unfold positive_minimums.
  induction rs as [|r rs IH]; cbn [positive_values map filter].
  - reflexivity.
  - rewrite Hget. cbn [rbind].
    destruct (py_gt (min_or_zero (times r)) fzero); [|exact IH].
    cbn [rbind]. rewrite IH. reflexivity.
Qed.

Lemma guarded_mean (xs : list F) :
  (if truthy xs then py_mean xs else Ok fzero) = Ok (mean_or_zero xs).
Proof. destruct xs; reflexivity. Qed.

Lemma category_row_value (cat : string) (members : list (BenchmarkResult F)) :
  category_row (cat, members) = Ok (expected_row cat members).
Proof.
  unfold category_row, expected_row.
  rewrite (positive_values_minimums fcx_min fcx_times) by apply fcx_min_value.
  rewrite (positive_values_minimums c_min c_times) by apply c_min_value.
  cbn [rbind]. rewrite !guarded_mean. cbn [rbind].
  destruct (py_gt (mean_or_zero (positive_minimums c_times members)) fzero)
    eqn:Hpos.
  - rewrite py_truediv_pos by exact Hpos. reflexivity.
  - reflexivity.
Qed.

Lemma category_rows_value (items : list (string * list (BenchmarkResult F))) :
  category_rows items
  = Ok (map (fun item => expected_row (fst item) (snd item)) items).
Proof.
  induction items as [|[cat members] items IH]; cbn [category_rows map].
  - reflexivity.
  - rewrite category_row_value, IH. reflexivity.
Qed.




End SummaryFacts.

(** The line of a category with a single benchmark carries the ratio of that
    benchmark, where the mean of one value is that value and 0 divided by
    the reference minimum is 0. *)
Lemma single_benchmark_category_ratio {F : Type} `{PyFloat F}
  (r : BenchmarkResult F) :
  fmean [min_or_zero (fcx_times r)] = min_or_zero (fcx_times r) ->
  fmean [min_or_zero (c_times r)] = min_or_zero (c_times r) ->
  fdiv fzero (min_or_zero (c_times r)) = fzero ->
  exists row, print_summary [r] = Ok [row] /\ ratio r = Ok (row_ratio row).
Proof.
  intros Hfm Hcm Hdiv.
  exists (expected_row (category r) [r]). split.
  - unfold print_summary, group_by_category.
    cbn [group_from]. unfold group_step, dict_mem, dict_item.
    cbn [dict_get negb dict_set]. rewrite String.eqb_refl.
    cbn [rbind app sorted fold_right insert_item].
    rewrite category_rows_value. reflexivity.
  - rewrite ratio_value. unfold expected_row, positive_minimums.
    cbn [map filter row_ratio].
    destruct (py_gt (min_or_zero (c_times r)) fzero) eqn:Hc;
      destruct (py_gt (min_or_zero (fcx_times r)) fzero) eqn:Hf;
      cbn [mean_or_zero andb]; rewrite ?Hfm, ?Hcm, ?Hc, ?py_gt_zero_zero,
        ?Hdiv; reflexivity.
Qed.

(** Both hold throughout in an arithmetic without rounding. *)
Lemma single_benchmark_category_ratio_exact {F : Type} `{ExactArith F}
  (r : BenchmarkResult F) :
  exists row, print_summary [r] = Ok [row] /\ ratio r = Ok (row_ratio row).
Proof.
  apply single_benchmark_category_ratio;
    [apply fmean_single | apply fmean_single | apply fdiv_zero].
Qed.

(** In binary64, for the one benchmark with candidate times 3.0 and 2.0
    and reference times 4.0 and 8.0. *)
Lemma single_benchmark_category_ratio_binary64 :
  print_summary [Scenario.three_to_four]
  = Ok [{| row_category := "loop";
           row_fcx_avg := 2%float;
           row_c_avg := 4%float;
           row_ratio := 0x1p-1%float |}] /\
  ratio Scenario.three_to_four = Ok 0x1p-1%float.
Proof. split; vm_compute; reflexivity. Qed.


(* ================================================================== *)
(** * The log of a benchmark run *)

Lemma Forall_impl_in {A} (P Q : A -> Prop) (l : list A) :
  Forall P l -> (forall x, In x l -> P x -> Q x) -> Forall Q l.
Proof.
  intros HP Himp. apply Forall_forall. intros x Hx.
  apply Himp; [exact Hx|]. now apply (proj1 (Forall_forall P l) HP).
Qed.

Section LogFacts.
Context {F : Type} `{PyFloat F}.
Variable env : Env.
Variable self : BenchmarkRunner.

Lemma run_binary_shape (binary : Path) (w : World) :
  exists t log,
    run_binary env self binary w = (Ok t, w ++ log) /\
    Forall (binary_event binary) log /\
    (spawn_count log <= 2)%nat /\
    (monotone_clock env -> forall s, t = Some s -> elapsed_ms s).
Proof.
  destruct (run_binary_cases env self binary w) as (t & w' & Hrun & Hcase).
  destruct Hcase as [Hex|f Hex Hwarm|rc0 f Hex Hwarm Htimed
                    |rc0 rc Hex Hwarm Htimed];
    eexists _, _; (split; [exact Hrun|]);
    (split; [unfold run_binary_log, binary_event; repeat constructor; tauto|]);
    (split; [cbn; lia|]); intros Hmono s Hs; try discriminate.
  destruct ((rc =? 0) || (rc =? 1))%bool; [|discriminate].
  injection Hs as <-. eexists. split; [|reflexivity].
  pose proof (Hmono (w ++ [EvStat binary; EvSpawn [path_str binary] 60])
                [EvClock; EvSpawn [path_str binary] 60]) as Hle.
  rewrite <- app_assoc in Hle. cbn [app] in Hle. lia.
Qed.

Lemma timing_loop_shape (binary : Path) (xs : list Z) :
  forall (times : list F) (w : World),
  exists times' log,
    for_each xs (timed_iteration env self binary) times w
      = (Ok times', w ++ log) /\
    Forall (binary_event binary) log /\
    (spawn_count log <= 2 * List.length xs)%nat /\
    (List.length times'
     <= List.length times + List.length (filter (fun i => i >? 0) xs))%nat /\
    (monotone_clock env -> Forall elapsed_ms times -> Forall elapsed_ms times').
Proof.
  induction xs as [|i xs IH]; intros times w; cbn [for_each].
  - exists times, []. rewrite app_nil_r. cbn.
    repeat split; [constructor | lia | lia | tauto].
  - destruct (run_binary_shape binary w) as (t & log1 & Hrun & Hev1 & Hsp1 & Hel1).
    set (times1 := match t with
                   | Some t0 => if i >? 0 then times ++ [t0] else times
                   | None => times
                   end).
    assert (Hiter : timed_iteration env self binary i times w
                    = (Ok times1, w ++ log1)).
    { unfold timed_iteration, bind. rewrite Hrun. subst times1.
      destruct t as [t0|]; [destruct (i >? 0)|]; reflexivity. }
    destruct (IH times1 (w ++ log1))
      as (times' & log2 & Hloop & Hev2 & Hsp2 & Hlen2 & Hel2).
    exists times', (log1 ++ log2). unfold bind at 1. rewrite Hiter, Hloop.
    rewrite app_assoc. split; [reflexivity|].
    split; [now apply Forall_app|].
    split; [rewrite spawn_count_app; cbn [List.length]; lia|].
    split.
    + cbn [filter]. subst times1.
      destruct t as [t0|]; destruct (i >? 0); cbn [List.length];
        rewrite ?length_app in Hlen2; cbn [List.length] in Hlen2; lia.
    + intros Hmono Htimes. apply (Hel2 Hmono). subst times1.
      destruct t as [t0|]; [|exact Htimes].
      destruct (i >? 0); [|exact Htimes].
      apply Forall_app. split; [exact Htimes|].
      constructor; [|constructor]. now apply (Hel1 Hmono).
Qed.

Lemma timed_runs_shape (binary : Path) (k : Z) (w : World) :
  exists times log,
    timed_runs env self binary k w = (Ok times, w ++ log) /\
    Forall (binary_event binary) log /\
    (spawn_count log <= 2 * Z.to_nat k)%nat /\
    (List.length times <= Z.to_nat (k - 1))%nat /\
    (monotone_clock env -> Forall elapsed_ms times).
Proof.
  unfold timed_runs.
  destruct (timing_loop_shape binary (range k) [] w)
    as (times & log & Hloop & Hev & Hsp & Hlen & Hel).
  exists times, log. rewrite range_length in Hsp.
  rewrite range_positive_count in Hlen. cbn [List.length] in Hlen.
  repeat split; try assumption; try lia.
  intros Hmono. apply (Hel Hmono). constructor.
Qed.

Lemma compile_fcx_shape (src out : Path) (opt_flag : string) (w : World) :
  exists res log,
    compile_fcx env self src out opt_flag w = (res, w ++ log) /\
    Forall (compile_event src
              [path_str (fcx_compiler self); opt_flag; path_str src; "-o";
               path_str out]) log /\
    (spawn_count log <= 1)%nat /\
    (forall e, res = Raise e -> e = OtherOSError /\ ~ no_os_failure env).
Proof.
  unfold compile_fcx. unfold_monad.
  destruct (path_exists env w src); cbn [negb].
  2:{ eexists _, _. split; [reflexivity|].
      split; [repeat constructor|]. split; [cbn; lia|]. discriminate. }
  destruct (run_outcome env (w ++ [EvStat src]) _ 30) as [rc|[ | | ]] eqn:Hrun;
    cbn [exn_of_failure is_TimeoutExpired is_FileNotFoundError orb];
    norm_world; eexists _, _; (split; [reflexivity|]);
    (split; [unfold compile_event; repeat constructor; tauto|]);
    (split; [cbn; lia|]); intros e He; try discriminate.
  injection He as <-. split; [reflexivity|].
  intros Hno. exact (Hno _ _ _ Hrun).
Qed.

Lemma compile_c_shape (src out : Path) (opt_flags : string) (w : World) :
  exists res log,
    compile_c env self src out opt_flags w = (res, w ++ log) /\
    Forall (compile_event src
              ([c_compiler self] ++ split opt_flags
               ++ [path_str src; "-o"; path_str out])) log /\
    (spawn_count log <= 1)%nat /\
    (forall e, res = Raise e -> e = OtherOSError /\ ~ no_os_failure env).
Proof.
  unfold compile_c. unfold_monad.
  destruct (path_exists env w src); cbn [negb].
  2:{ eexists _, _. split; [reflexivity|].
      split; [repeat constructor|]. split; [cbn; lia|]. discriminate. }
  destruct (run_outcome env (w ++ [EvStat src]) _ 30) as [rc|[ | | ]] eqn:Hrun;
    cbn [exn_of_failure is_TimeoutExpired is_FileNotFoundError orb];
    norm_world; eexists _, _; (split; [reflexivity|]);
    (split; [unfold compile_event; repeat constructor; tauto|]);
    (split; [cbn; lia|]); intros e He; try discriminate.
  injection He as <-. split; [reflexivity|].
  intros Hno. exact (Hno _ _ _ Hrun).
Qed.

Lemma phase_shape (built : bool) (binary : Path) (k : Z) (w : World) :
  exists times log,
    (if built then timed_runs env self binary k else ret []) w
      = (Ok times, w ++ log) /\
    Forall (binary_event binary) log /\
    (spawn_count log <= 2 * Z.to_nat k)%nat /\
    (List.length times <= Z.to_nat (k - 1))%nat /\
    (built = false -> log = [] /\ times = []) /\
    (monotone_clock env -> Forall elapsed_ms times).
Proof.
  destruct built.
  - destruct (timed_runs_shape binary k w)
      as (times & log & Hrun & Hev & Hsp & Hlen & Hel).
    exists times, log. repeat split; try assumption; discriminate.
  - exists [], []. unfold ret. rewrite app_nil_r. cbn.
    repeat split; try constructor; lia.
Qed.

(** The log of a [run_benchmark] call for a known optimization level: the
    two compile steps, then the candidate executions, then the reference
    executions. *)
Lemma run_benchmark_shape (nm cat opt : string) (config : OptConfig)
  (w : World) :
  dict_get OPT_CONFIGS opt = Some config ->
  exists res l_fc l_cc l_f l_c,
    run_benchmark env self nm cat opt w
      = (res, w ++ l_fc ++ l_cc ++ l_f ++ l_c) /\
    Forall (compile_event (fcx_src_of self nm) (fcx_cmd_of self nm opt config))
      l_fc /\
    Forall (compile_event (c_src_of self nm) (c_cmd_of self nm opt config))
      l_cc /\
    Forall (binary_event (fcx_bin_of self nm opt)) l_f /\
    Forall (binary_event (c_bin_of self nm opt)) l_c /\
    (spawn_count l_fc <= 1)%nat /\
    (spawn_count l_cc <= 1)%nat /\
    (spawn_count l_f <= 2 * Z.to_nat (iterations self + 2))%nat /\
    (spawn_count l_c <= 2 * Z.to_nat (iterations self + 2))%nat /\
    match res with
    | Ok r =>
        name r = nm /\ category r = cat /\ opt_level r = opt /\
        (fcx_compiled r = false -> l_f = [] /\ fcx_times r = []) /\
        (c_compiled r = false -> l_c = [] /\ c_times r = []) /\
        (List.length (fcx_times r) <= Z.to_nat (iterations self + 1))%nat /\
        (List.length (c_times r) <= Z.to_nat (iterations self + 1))%nat /\
        (monotone_clock env ->
         Forall elapsed_ms (fcx_times r) /\ Forall elapsed_ms (c_times r))
    | Raise e =>
        e = OtherOSError /\ ~ no_os_failure env /\ l_f = [] /\ l_c = []
    end.
Proof.
  intros Hconfig.
  unfold run_benchmark. unfold bind at 1. unfold lift, dict_item.
  rewrite Hconfig.
  fold (fcx_src_of self nm) (c_src_of self nm)
       (fcx_bin_of self nm opt) (c_bin_of self nm opt).
  destruct (compile_fcx_shape (fcx_src_of self nm) (fcx_bin_of self nm opt)
              (fcx_flags config) w)
    as (res1 & l_fc & Hfc & Hev_fc & Hsp_fc & Hraise_fc).
  unfold bind at 1. rewrite Hfc.
  destruct res1 as [b1|e1].
  2:{ exists (Raise e1), l_fc, [], [], []. rewrite !app_nil_r.
      destruct (Hraise_fc e1 eq_refl) as [-> Hos].
      repeat split; try assumption; try constructor; cbn; lia. }
  destruct (compile_c_shape (c_src_of self nm) (c_bin_of self nm opt)
              (c_flags config) (w ++ l_fc))
    as (res2 & l_cc & Hcc & Hev_cc & Hsp_cc & Hraise_cc).
  unfold bind at 1. rewrite Hcc.
  destruct res2 as [b2|e2].
  2:{ exists (Raise e2), l_fc, l_cc, [], []. rewrite !app_nil_r.
      rewrite <- app_assoc.
      destruct (Hraise_cc e2 eq_refl) as [-> Hos].
      repeat split; try assumption; try constructor; cbn; lia. }
  destruct (phase_shape b1 (fcx_bin_of self nm opt) (iterations self + 2)
              ((w ++ l_fc) ++ l_cc))
    as (ft & l_f & Hf & Hev_f & Hsp_f & Hlen_f & Hoff_f & Hel_f).
  unfold bind at 1. rewrite Hf.
  destruct (phase_shape b2 (c_bin_of self nm opt) (iterations self + 2)
              (((w ++ l_fc) ++ l_cc) ++ l_f))
    as (ct & l_c & Hc & Hev_c & Hsp_c & Hlen_c & Hoff_c & Hel_c).
  unfold bind at 1. rewrite Hc. unfold ret.
  eexists (Ok _), l_fc, l_cc, l_f, l_c.
  rewrite <- !app_assoc.
  replace (iterations self + 2 - 1) with (iterations self + 1) in * by lia.
  split; [reflexivity|].
  cbn [name category opt_level fcx_times c_times fcx_compiled c_compiled].
  repeat split; try assumption; try (now apply Hoff_f); try (now apply Hoff_c);
    try (now apply Hel_f); now apply Hel_c.
Qed.

End LogFacts.

(** ** Artifact paths *)

Lemma append_inj_l (s a b : string) : (s ++ a = s ++ b)%string -> a = b.
Proof.
  induction s as [|ch s IH]; cbn [String.append]; intros Heq.
  - exact Heq.
  - injection Heq as Heq. now apply IH.
Qed.

Lemma concat_snoc_inj (sep : string) (l : list string) (a b : string) :
  String.concat sep (l ++ [a]) = String.concat sep (l ++ [b]) -> a = b.
Proof.
  induction l as [|x l IH]; cbn [app String.concat].
  - tauto.
  - destruct l as [|y l]; cbn [app] in *.
    + intros Heq. now do 2 apply append_inj_l in Heq.
    + intros Heq. do 2 apply append_inj_l in Heq. now apply IH.
Qed.

Lemma path_str_join_inj (p : Path) (a b : string) :
  path_str (p // a) = path_str (p // b) -> a = b.
Proof.
  unfold path_str, path_join. intros Heq.
  apply (append_inj_l "/") in Heq. now apply concat_snoc_inj in Heq.
Qed.

(** The two binaries of a benchmark are different files. *)
Lemma binaries_differ (self : BenchmarkRunner) (nm opt : string) :
  path_str (fcx_bin_of self nm opt) <> path_str (c_bin_of self nm opt).
Proof.
  unfold fcx_bin_of, c_bin_of. intros Heq.
  apply path_str_join_inj, append_inj_l in Heq. discriminate.
Qed.

Lemma binary_not_compile_command (self : BenchmarkRunner) (nm opt : string)
  (config : OptConfig) (binary : Path) :
  [path_str binary] <> fcx_cmd_of self nm opt config /\
  [path_str binary] <> c_cmd_of self nm opt config.
Proof.
  split; [discriminate|].
  unfold c_cmd_of. cbn [app]. intros Heq. injection Heq as _ Heq.
  symmetry in Heq. apply app_eq_nil in Heq. destruct Heq as [_ Heq].
  discriminate.
Qed.

Section BenchmarkRunFacts.
Context {F : Type} `{PyFloat F}.
Variable env : Env.
Variable self : BenchmarkRunner.

(** X1: an optimization level that is not a key of [OPT_CONFIGS] makes
    [run_benchmark] and [run_all] raise [KeyError] before any file is
    looked up and any process started. *)
Theorem unknown_opt_level_raises (nm cat opt : string)
  (category : option string) (w : World) :
  dict_get OPT_CONFIGS opt = None ->
  run_benchmark (F:=F) env self nm cat opt w = (Raise (KeyError opt), w) /\
  run_all (F:=F) env self opt category w = (Raise (KeyError opt), w).
Proof.
  intros Hnone. split.
  - unfold run_benchmark, bind, lift, dict_item. now rewrite Hnone.
  - unfold run_all, print_header, bind, lift, dict_item. now rewrite Hnone.
Qed.

Lemma run_benchmark_known (nm cat opt : string) (w w' : World)
  (r : BenchmarkResult F) :
  run_benchmark env self nm cat opt w = (Ok r, w') ->
  exists config, dict_get OPT_CONFIGS opt = Some config.
Proof.
  intros Hrun. destruct (dict_get OPT_CONFIGS opt) as [config|] eqn:Hget.
  - now exists config.
  - unfold run_benchmark, bind, lift, dict_item in Hrun.
    rewrite Hget in Hrun. discriminate.
Qed.

(** X2: a result of [run_benchmark] carries the name, category and
    optimization level it was called with; a side that was not built has no
    samples; no side has more than [iterations + 1] samples. *)
Theorem run_benchmark_result_invariant (nm cat opt : string) (w w' : World)
  (r : BenchmarkResult F) :
  run_benchmark env self nm cat opt w = (Ok r, w') ->
  entry_of r = (nm, cat) /\
  opt_level r = opt /\
  samples_only_if_built r /\
  (List.length (fcx_times r) <= Z.to_nat (iterations self + 1))%nat /\
  (List.length (c_times r) <= Z.to_nat (iterations self + 1))%nat.
Proof.
  intros Hrun. destruct (run_benchmark_known _ _ _ _ _ _ Hrun) as (config & Hconfig).
  destruct (run_benchmark_shape env self nm cat opt config w Hconfig)
    as (res & l_fc & l_cc & l_f & l_c & Heq & _ & _ & _ & _ & _ & _ & _ & _ & Hres).
  rewrite Hrun in Heq. injection Heq as <- _.
  destruct Hres as (Hn & Hc & Ho & Hf & Hcs & Hlf & Hlc & _).
  unfold entry_of, samples_only_if_built. rewrite Hn, Hc.
  repeat split; try assumption.
  - intros Hb. now apply Hf.
  - intros Hb. now apply Hcs.
Qed.

(** X3: when a side was not built, the result's minimum and mean for that side
    are the sentinel 0.0 and its ratio is 0.0, whatever the other side
    measured. *)
Theorem unbuilt_side_reports_zero (nm cat opt : string) (w w' : World)
  (r : BenchmarkResult F) :
  run_benchmark env self nm cat opt w = (Ok r, w') ->
  (fcx_compiled r = false ->
   fcx_min r = Ok fzero /\ fcx_avg r = Ok fzero /\ ratio r = Ok fzero) /\
  (c_compiled r = false ->
   c_min r = Ok fzero /\ c_avg r = Ok fzero /\ ratio r = Ok fzero).
Proof.
  intros Hrun. destruct (run_benchmark_known _ _ _ _ _ _ Hrun) as (config & Hconfig).
  destruct (run_benchmark_shape env self nm cat opt config w Hconfig)
    as (res & l_fc & l_cc & l_f & l_c & Heq & _ & _ & _ & _ & _ & _ & _ & _ & Hres).
  rewrite Hrun in Heq. injection Heq as <- _.
  destruct Hres as (_ & _ & _ & Hf & Hc & _).
  split; intros Hb.
  - destruct (Hf Hb) as [_ Hnil].
    rewrite fcx_min_value, fcx_avg_value, ratio_value, Hnil.
    cbn [min_or_zero mean_or_zero]. rewrite py_gt_zero_zero, andb_false_r.
    repeat split.
  - destruct (Hc Hb) as [_ Hnil].
    rewrite c_min_value, c_avg_value, ratio_value, Hnil.
    cbn [min_or_zero mean_or_zero]. rewrite py_gt_zero_zero.
    repeat split.
Qed.

(** X4: with a clock that never goes back, every recorded sample is the
    quotient by 1,000,000 of a non-negative number of nanoseconds. *)
Theorem samples_are_elapsed_times (nm cat opt : string) (w w' : World)
  (r : BenchmarkResult F) :
  monotone_clock env ->
  run_benchmark env self nm cat opt w = (Ok r, w') ->
  Forall elapsed_ms (fcx_times r) /\ Forall elapsed_ms (c_times r).
Proof.
  intros Hmono Hrun.
  destruct (run_benchmark_known _ _ _ _ _ _ Hrun) as (config & Hconfig).
  destruct (run_benchmark_shape env self nm cat opt config w Hconfig)
    as (res & l_fc & l_cc & l_f & l_c & Heq & _ & _ & _ & _ & _ & _ & _ & _ & Hres).
  rewrite Hrun in Heq. injection Heq as <- _.
  destruct Hres as (_ & _ & _ & _ & _ & _ & _ & Hel). now apply Hel.
Qed.

Lemma compile_event_bounded (src : Path) (cmd : list string) (ev : event) :
  compile_event src cmd ev -> bounded_spawn ev.
Proof.
  intros [-> | ->] cmd' timeout Heq; [discriminate|].
  injection Heq as _ <-. now left.
Qed.

Lemma binary_event_bounded (binary : Path) (ev : event) :
  binary_event binary ev -> bounded_spawn ev.
Proof.
  intros [-> | [-> | ->]] cmd' timeout Heq; try discriminate.
  injection Heq as _ <-. now right.
Qed.

Lemma compile_event_other_command (src : Path) (cmd other : list string)
  (ev : event) :
  other <> cmd -> compile_event src cmd ev -> ~ spawns other ev.
Proof.
  intros Hneq [-> | ->] [timeout Heq]; [discriminate|].
  injection Heq as Heq _. congruence.
Qed.

Lemma binary_event_other_binary (binary other : Path) (ev : event) :
  path_str other <> path_str binary ->
  binary_event binary ev -> ~ spawns [path_str other] ev.
Proof.
  intros Hneq [-> | [-> | ->]] [timeout Heq]; try discriminate.
  congruence.
Qed.

(** The log a [run_benchmark] call adds, whatever its outcome. *)
Lemma run_benchmark_log (nm cat opt : string) (w : World) :
  exists res l_compile l_f l_c,
    run_benchmark (F:=F) env self nm cat opt w
      = (res, w ++ l_compile ++ l_f ++ l_c) /\
    Forall bounded_spawn (l_compile ++ l_f ++ l_c) /\
    (spawn_count (l_compile ++ l_f ++ l_c)
     <= 2 + 4 * Z.to_nat (iterations self + 2))%nat /\
    Forall (fun ev => ~ spawns [path_str (fcx_bin_of self nm opt)] ev
                      /\ ~ spawns [path_str (c_bin_of self nm opt)] ev)
      l_compile /\
    Forall (fun ev => ~ spawns [path_str (c_bin_of self nm opt)] ev) l_f /\
    Forall (fun ev => ~ spawns [path_str (fcx_bin_of self nm opt)] ev) l_c /\
    (forall r, res = Ok r ->
               (fcx_compiled r = false -> l_f = []) /\
               (c_compiled r = false -> l_c = [])).
Proof.
  destruct (dict_get OPT_CONFIGS opt) as [config|] eqn:Hconfig.
  2:{ exists (Raise (KeyError opt)), [], [], []. cbn [app]. rewrite app_nil_r.
      split.
      { unfold run_benchmark, bind, lift, dict_item. now rewrite Hconfig. }
      repeat split; try constructor; try discriminate. cbn. lia. }
  destruct (run_benchmark_shape env self nm cat opt config w Hconfig)
    as (res & l_fc & l_cc & l_f & l_c & Heq & Hfc & Hcc & Hf & Hc
        & Hs1 & Hs2 & Hs3 & Hs4 & Hres).
  exists res, (l_fc ++ l_cc), l_f, l_c.
  split; [rewrite <- !app_assoc; exact Heq|].
  destruct (binary_not_compile_command self nm opt config (fcx_bin_of self nm opt))
    as [Hn1 Hn2].
  destruct (binary_not_compile_command self nm opt config (c_bin_of self nm opt))
    as [Hn3 Hn4].
  pose proof (binaries_differ self nm opt) as Hdiff.
  split.
  { rewrite !Forall_app. repeat split.
    - eapply Forall_impl; [|exact Hfc]. apply compile_event_bounded.
    - eapply Forall_impl; [|exact Hcc]. apply compile_event_bounded.
    - eapply Forall_impl; [|exact Hf]. apply binary_event_bounded.
    - eapply Forall_impl; [|exact Hc]. apply binary_event_bounded. }
  split; [rewrite !spawn_count_app; lia|].
  split.
  { apply Forall_app. split.
    - eapply Forall_impl; [|exact Hfc]. intros ev Hev.
      split; [exact (compile_event_other_command _ _ _ _ Hn1 Hev)
             |exact (compile_event_other_command _ _ _ _ Hn3 Hev)].
    - eapply Forall_impl; [|exact Hcc]. intros ev Hev.
      split; [exact (compile_event_other_command _ _ _ _ Hn2 Hev)
             |exact (compile_event_other_command _ _ _ _ Hn4 Hev)]. }
  split.
  { eapply Forall_impl; [|exact Hf]. intros ev Hev.
    apply (binary_event_other_binary (fcx_bin_of self nm opt)); [|exact Hev].
    congruence. }
  split.
  { eapply Forall_impl; [|exact Hc]. intros ev Hev.
    apply (binary_event_other_binary (c_bin_of self nm opt)); [|exact Hev].
    exact Hdiff. }
  intros r ->. destruct Hres as (_ & _ & _ & Hoff_f & Hoff_c & _).
  split; intros Hb; [now apply Hoff_f | now apply Hoff_c].
Qed.

(** X5: a binary whose compile step did not succeed in this call is never
    executed by it, even when a file of that name is left from an earlier
    run. *)
Theorem unbuilt_binary_never_executed (nm cat opt : string) (w w' : World)
  (r : BenchmarkResult F) :
  run_benchmark env self nm cat opt w = (Ok r, w') ->
  exists log,
    w' = w ++ log /\
    (fcx_compiled r = false ->
     Forall (fun ev => ~ spawns [path_str (fcx_bin_of self nm opt)] ev) log) /\
    (c_compiled r = false ->
     Forall (fun ev => ~ spawns [path_str (c_bin_of self nm opt)] ev) log).
Proof.
  intros Hrun.
  destruct (run_benchmark_log nm cat opt w)
    as (res & l_compile & l_f & l_c & Heq & _ & _ & Hcompile & Hf & Hc & Hoff).
  rewrite Hrun in Heq. injection Heq as <- ->.
  destruct (Hoff r eq_refl) as [Hoff_f Hoff_c].
  eexists. split; [reflexivity|].
  split; intros Hb.
  - rewrite (Hoff_f Hb). cbn [app]. apply Forall_app. split; [|exact Hc].
    eapply Forall_impl; [|exact Hcompile]. intros ev [? ?]; assumption.
  - rewrite (Hoff_c Hb), app_nil_r. apply Forall_app. split; [|exact Hf].
    eapply Forall_impl; [|exact Hcompile]. intros ev [? ?]; assumption.
Qed.

(** X6: the two sides are measured one after the other: once the reference
    binary has been executed, the candidate binary is not executed any
    more. *)
Theorem candidate_runs_precede_reference_runs (nm cat opt : string)
  (w w' : World) (res : result (BenchmarkResult F)) :
  run_benchmark env self nm cat opt w = (res, w') ->
  exists before after,
    w' = w ++ before ++ after /\
    Forall (fun ev => ~ spawns [path_str (c_bin_of self nm opt)] ev) before /\
    Forall (fun ev => ~ spawns [path_str (fcx_bin_of self nm opt)] ev) after.
Proof.
  intros Hrun.
  destruct (run_benchmark_log nm cat opt w)
    as (res0 & l_compile & l_f & l_c & Heq & _ & _ & Hcompile & Hf & Hc & _).
  rewrite Hrun in Heq. injection Heq as _ ->.
  exists (l_compile ++ l_f), l_c. rewrite <- app_assoc.
  split; [reflexivity|]. split; [|exact Hc].
  apply Forall_app. split; [|exact Hf].
  eapply Forall_impl; [|exact Hcompile]. intros ev [? ?]; assumption.
Qed.

(** X7: every process [run_benchmark] starts has a timeout of 30 or 60
    seconds, and it starts at most [2 + 4 * (iterations + 2)] processes. *)
Theorem run_benchmark_process_budget (nm cat opt : string) (w w' : World)
  (res : result (BenchmarkResult F)) :
  run_benchmark env self nm cat opt w = (res, w') ->
  exists log,
    w' = w ++ log /\
    Forall bounded_spawn log /\
    (spawn_count log <= 2 + 4 * Z.to_nat (iterations self + 2))%nat.
Proof.
  intros Hrun.
  destruct (run_benchmark_log nm cat opt w)
    as (res0 & l_compile & l_f & l_c & Heq & Hbounded & Hcount & _).
  rewrite Hrun in Heq. injection Heq as _ ->.
  eexists. split; [reflexivity|]. now split.
Qed.

(** ** run_all *)

Lemma run_benchmark_summary (nm cat opt : string) (config : OptConfig)
  (w : World) :
  dict_get OPT_CONFIGS opt = Some config ->
  exists res log,
    run_benchmark (F:=F) env self nm cat opt w = (res, w ++ log) /\
    Forall bounded_spawn log /\
    (spawn_count log <= 2 + 4 * Z.to_nat (iterations self + 2))%nat /\
    match res with
    | Ok r =>
        entry_of r = (nm, cat) /\ opt_level r = opt /\ samples_only_if_built r
    | Raise e => e = OtherOSError /\ ~ no_os_failure env
    end.
Proof.
  intros Hconfig.
  destruct (run_benchmark_log nm cat opt w)
    as (res & l_compile & l_f & l_c & Heq & Hbounded & Hcount & _).
  destruct (run_benchmark_shape env self nm cat opt config w Hconfig)
    as (res' & l_fc & l_cc & l_f' & l_c' & Heq' & _ & _ & _ & _ & _ & _ & _ & _
        & Hres).
  rewrite Heq in Heq'. injection Heq' as <- _.
  exists res, (l_compile ++ l_f ++ l_c). split; [exact Heq|].
  split; [exact Hbounded|]. split; [exact Hcount|].
  destruct res as [r|e].
  - destruct Hres as (Hn & Hc & Ho & Hf & Hcs & _).
    unfold entry_of, samples_only_if_built. rewrite Hn, Hc.
    repeat split; try assumption; intros Hb; [now apply Hf | now apply Hcs].
  - destruct Hres as (He & Hos & _). now split.
Qed.

Lemma run_all_loop_shape (opt : string) (config : OptConfig)
  (entries : list (string * string)) :
  dict_get OPT_CONFIGS opt = Some config ->
  forall (acc : list (BenchmarkResult F)) (w : World),
  exists res log,
    for_each entries
      (fun entry results =>
         bind (run_benchmark env self (fst entry) (snd entry) opt)
           (fun result => ret (results ++ [result])))
      acc w = (res, w ++ log) /\
    Forall bounded_spawn log /\
    (spawn_count log
     <= List.length entries * (2 + 4 * Z.to_nat (iterations self + 2)))%nat /\
    match res with
    | Ok results =>
        exists new,
          results = acc ++ new /\
          map entry_of new = entries /\
          Forall (fun r => opt_level r = opt /\ samples_only_if_built r) new
    | Raise e => e = OtherOSError /\ ~ no_os_failure env
    end.
Proof.
  intros Hconfig.
  induction entries as [|[nm cat] entries IH]; intros acc w; cbn [for_each].
  - exists (Ok acc), []. unfold ret. rewrite app_nil_r.
    split; [reflexivity|]. split; [constructor|]. split; [cbn; lia|].
    exists []. rewrite app_nil_r. repeat split. constructor.
  - cbn [fst snd].
    destruct (run_benchmark_summary nm cat opt config w Hconfig)
      as (res1 & log1 & Hrun & Hb1 & Hc1 & Hres1).
    unfold bind at 1. unfold bind at 1. rewrite Hrun.
    destruct res1 as [r|e].
    2:{ exists (Raise e), log1. split; [reflexivity|].
        split; [exact Hb1|]. split; [cbn [List.length]; nia|]. exact Hres1. }
    unfold ret at 1.
    destruct (IH (acc ++ [r]) (w ++ log1)) as (res & log2 & Hloop & Hb2 & Hc2 & Hres).
    exists res, (log1 ++ log2). rewrite app_assoc. split; [exact Hloop|].
    split; [now apply Forall_app|].
    split; [rewrite spawn_count_app; cbn [List.length]; nia|].
    destruct res as [results|e]; [|exact Hres].
    destruct Hres as (new & -> & Hmap & Hall).
    destruct Hres1 as (Hentry & Hopt & Hbuilt).
    exists (r :: new). rewrite <- app_assoc. split; [reflexivity|].
    cbn [map]. rewrite Hentry, Hmap. split; [reflexivity|].
    constructor; [now split | exact Hall].
Qed.

Lemma run_all_shape (opt : string) (config : OptConfig)
  (category : option string) (w : World) :
  dict_get OPT_CONFIGS opt = Some config ->
  exists res log,
    run_all (F:=F) env self opt category w = (res, w ++ log) /\
    Forall bounded_spawn log /\
    (spawn_count log
     <= List.length (filter (selected category) BENCHMARKS)
        * (2 + 4 * Z.to_nat (iterations self + 2)))%nat /\
    match res with
    | Ok results =>
        map entry_of results = filter (selected category) BENCHMARKS /\
        Forall (fun r => opt_level r = opt /\ samples_only_if_built r) results
    | Raise e => e = OtherOSError /\ ~ no_os_failure env
    end.
Proof.
  intros Hconfig.
  destruct (run_all_loop_shape opt config
              (filter (selected category) BENCHMARKS) Hconfig [] w)
    as (res & log & Hloop & Hb & Hc & Hres).
  exists res, log.
  split.
  { unfold run_all, print_header. unfold bind at 1. unfold bind at 1.
    unfold lift, dict_item. rewrite Hconfig. unfold ret at 1. exact Hloop. }
  split; [exact Hb|]. split; [exact Hc|].
  destruct res as [results|e]; [|exact Hres].
  destruct Hres as (new & -> & Hmap & Hall). now split.
Qed.

(** X8: when [run_all] returns, its results stand for the catalog entries the
    category filter selects, in catalog order, one result per entry, all
    with the optimization level of the call. *)
Theorem run_all_results_follow_catalog (opt : string)
  (category : option string) (w w' : World)
  (results : list (BenchmarkResult F)) :
  run_all env self opt category w = (Ok results, w') ->
  map entry_of results = filter (selected category) BENCHMARKS /\
  Forall (fun r => opt_level r = opt /\ samples_only_if_built r) results.
Proof.
  intros Hrun.
  destruct (dict_get OPT_CONFIGS opt) as [config|] eqn:Hconfig.
  - destruct (run_all_shape opt config category w Hconfig)
      as (res & log & Heq & _ & _ & Hres).
    rewrite Hrun in Heq. injection Heq as <- _. exact Hres.
  - unfold run_all, print_header, bind, lift, dict_item in Hrun.
    rewrite Hconfig in Hrun. discriminate.
Qed.

(** X10: every process [run_all] starts has a timeout of 30 or 60 seconds, and
    it starts at most [2 + 4 * (iterations + 2)] processes per selected
    catalog entry. *)
Theorem run_all_process_budget (opt : string) (category : option string)
  (w w' : World) (res : result (list (BenchmarkResult F))) :
  run_all env self opt category w = (res, w') ->
  exists log,
    w' = w ++ log /\
    Forall bounded_spawn log /\
    (spawn_count log
     <= List.length (filter (selected category) BENCHMARKS)
        * (2 + 4 * Z.to_nat (iterations self + 2)))%nat.
Proof.
  intros Hrun.
  destruct (dict_get OPT_CONFIGS opt) as [config|] eqn:Hconfig.
  - destruct (run_all_shape opt config category w Hconfig)
      as (res0 & log & Heq & Hb & Hc & _).
    rewrite Hrun in Heq. injection Heq as _ ->.
    exists log. now repeat split.
  - unfold run_all, print_header, bind, lift, dict_item in Hrun.
    rewrite Hconfig in Hrun. injection Hrun as _ <-.
    exists []. rewrite app_nil_r.
    split; [reflexivity|]. split; [constructor|]. apply Nat.le_0_l.
Qed.

End BenchmarkRunFacts.

(** [main] chooses a key of [OPT_CONFIGS] for every combination of
    flags. *)
Lemma main_opt_level_known (args : Args) :
  exists config, dict_get OPT_CONFIGS (main_opt_level args) = Some config.
Proof.
  unfold main_opt_level.
  destruct (O0 args); [eexists; reflexivity|].
  destruct (O1 args); [eexists; reflexivity|].
  destruct (O3 args); [eexists; reflexivity|].
  destruct (Os args); eexists; reflexivity.
Qed.

Lemma print_summary_total {F : Type} `{PyFloat F}
  (results : list (BenchmarkResult F)) :
  exists categories,
    grouped results categories /\
    print_summary results
    = Ok (map (fun item => expected_row (fst item) (snd item))
            (sorted categories)).
Proof.
  destruct (group_by_category_grouped results) as (categories & Hgroup & Hgrouped).
  exists categories. split; [exact Hgrouped|].
  unfold print_summary. rewrite Hgroup. cbn [rbind].
  apply category_rows_value.
Qed.

(** X11: whatever combination of flags is given, the optimization level
    that [main] selects is a key of [OPT_CONFIGS]: [O0] when [-O0] is given,
    otherwise [O1] for [-O1], otherwise [O3] for [-O3], otherwise [Os] for
    [-Os], and [O2] in every other case, whether [-O2] is given or not.
    The [KeyError] of an unknown level therefore never leaves the [run_all]
    call of [main]. *)
Theorem main_level_is_configured {F : Type} `{PyFloat F} (env : Env)
  (script_dir : Path) (args : Args) (w : World) :
  (exists config, dict_get OPT_CONFIGS (main_opt_level args) = Some config) /\
  (O0 args = true -> main_opt_level args = "O0") /\
  (O0 args = false -> O1 args = true -> main_opt_level args = "O1") /\
  (O0 args = false -> O1 args = false -> O3 args = true ->
   main_opt_level args = "O3") /\
  (O0 args = false -> O1 args = false -> O3 args = false -> Os args = true ->
   main_opt_level args = "Os") /\
  (O0 args = false -> O1 args = false -> O3 args = false -> Os args = false ->
   main_opt_level args = "O2") /\
  (forall key,
     fst (run_all (F:=F) env
            (new_runner script_dir (args_iterations args) (args_verbose args))
            (main_opt_level args) (args_category args) w)
     <> Raise (KeyError key)).
Proof.
  split; [apply main_opt_level_known|].
  unfold main_opt_level.
  split; [now intros ->|].
  split; [now intros -> ->|].
  split; [now intros -> -> ->|].
  split; [now intros -> -> -> ->|].
  split; [now intros -> -> -> ->|].
  intros key.
  destruct (main_opt_level_known args) as (config & Hconfig).
  destruct (run_all_shape (F:=F) env
              (new_runner script_dir (args_iterations args) (args_verbose args))
              (main_opt_level args) config (args_category args) w Hconfig)
    as (res & log & Hrun & _ & _ & Hres).
  fold (main_opt_level args). rewrite Hrun. cbn [fst].
  destruct res as [results|e]; [discriminate|].
  destruct Hres as [-> _]. discriminate.
Qed.

(* ================================================================== *)
(** * More properties of results and reports *)

Section ResultFacts.
Context {F : Type} `{PyFloat F}.

(** X12: the minimum of a side with samples is one of its samples. *)
Theorem minimum_is_a_sample (self : BenchmarkResult F) :
  (fcx_times self <> [] ->
   exists m, fcx_min self = Ok m /\ In m (fcx_times self)) /\
  (c_times self <> [] ->
   exists m, c_min self = Ok m /\ In m (c_times self)).
Proof.
  split; intros Hne.
  - eexists. split; [apply fcx_min_value|].
    destruct (fcx_times self) as [|x rest]; [contradiction|].
    apply fold_min_member.
  - eexists. split; [apply c_min_value|].
    destruct (c_times self) as [|x rest]; [contradiction|].
    apply fold_min_member.
Qed.

Lemma positive_minimum_nonempty (xs : list F) :
  py_gt (min_or_zero xs) fzero = true -> xs <> [].
Proof.
  intros Hpos ->. cbn [min_or_zero] in Hpos.
  rewrite py_gt_zero_zero in Hpos. discriminate.
Qed.

Context `{PyFloatLiterals F}.

(** X13: [print_result] never raises.  It shows a ratio only when both sides
    have samples with a positive minimum; for a result in which an unbuilt
    side has no samples, as [run_benchmark] builds it, a ratio is then shown
    next to two measured minimums, never next to "compilation failed or not
    found". *)
Theorem ratio_line_needs_both_sides (res : BenchmarkResult F) :
  exists report,
    print_result res = Ok report /\
    (report_ratio report <> None ->
     fcx_times res <> [] /\ c_times res <> [] /\
     (samples_only_if_built res ->
      report_fcx report
      = MinOfRuns (min_or_zero (fcx_times res)) (List.length (fcx_times res)) /\
      report_c report
      = MinOfRuns (min_or_zero (c_times res)) (List.length (c_times res)))).
Proof.
  unfold print_result.
  rewrite fcx_min_value, c_min_value, ratio_value.
  assert (Hlines : samples_only_if_built res ->
            fcx_times res <> [] -> c_times res <> [] ->
            (if fcx_compiled res then truthy (fcx_times res) else false) = true /\
            (if c_compiled res then truthy (c_times res) else false) = true).
  { intros [Hfb Hcb] Hfne Hcne. split.
    - destruct (fcx_compiled res); [|now specialize (Hfb eq_refl)].
      destruct (fcx_times res); [contradiction | reflexivity].
    - destruct (c_compiled res); [|now specialize (Hcb eq_refl)].
      destruct (c_times res); [contradiction | reflexivity]. }
  destruct (py_gt (min_or_zero (c_times res)) fzero) eqn:Hc;
    [destruct (py_gt (min_or_zero (fcx_times res)) fzero) eqn:Hf|];
    cbn [andb].
  2,3: destruct (if fcx_compiled res then truthy (fcx_times res) else false);
       destruct (if c_compiled res then truthy (c_times res) else false);
       cbn [rbind]; rewrite py_gt_zero_zero;
       eexists; (split; [reflexivity|]);
       cbn [report_ratio]; congruence.
  pose proof (positive_minimum_nonempty _ Hf) as Hfne.
  pose proof (positive_minimum_nonempty _ Hc) as Hcne.
  destruct (if fcx_compiled res then truthy (fcx_times res) else false) eqn:Hfl;
    destruct (if c_compiled res then truthy (c_times res) else false) eqn:Hcl;
    cbn [rbind];
    destruct (py_gt (fdiv (min_or_zero (fcx_times res))
                       (min_or_zero (c_times res))) fzero);
    cbn [rbind];
    try destruct (py_lt (fdiv (min_or_zero (fcx_times res))
                           (min_or_zero (c_times res))) lit_1_1);
    cbn [rbind];
    try destruct (py_lt (fdiv (min_or_zero (fcx_times res))
                           (min_or_zero (c_times res))) lit_2_0);
    cbn [rbind];
    eexists; (split; [reflexivity|]); cbn [report_ratio report_fcx report_c];
    intros Hshown; try congruence;
    (split; [exact Hfne|]); (split; [exact Hcne|]);
    intros Hbuilt; destruct (Hlines Hbuilt Hfne Hcne); try discriminate;
    split; reflexivity.
Qed.

End ResultFacts.

(* ================================================================== *)
(** * More properties of the category table *)

Lemma string_ltb_trans (a b c : string) :
  String.ltb a b = true -> String.ltb b c = true -> String.ltb a c = true.
Proof.
  unfold String.ltb.
  change String.compare with OrdersEx.String_as_OT.compare.
  destruct (OrdersEx.String_as_OT.compare a b) eqn:Hab; try discriminate.
  destruct (OrdersEx.String_as_OT.compare b c) eqn:Hbc; try discriminate.
  intros _ _.
  assert (Hac : OrdersEx.String_as_OT.lt a c).
  { eapply (@StrictOrder_Transitive _ _ OrdersEx.String_as_OT.lt_strorder);
      eassumption. }
  unfold OrdersEx.String_as_OT.lt in Hac. now rewrite Hac.
Qed.

Lemma string_ltb_total (a b : string) :
  String.ltb a b = false -> a <> b -> String.ltb b a = true.
Proof.
  unfold String.ltb. rewrite (String.compare_antisym b a).
  destruct (String.compare a b) eqn:Hab; cbn; try discriminate;
    try reflexivity.
  intros _ Hne. apply String.compare_eq_iff in Hab. contradiction.
Qed.

Section SortedFacts.
Context {V : Type}.

Lemma insert_item_sorted (item : string * V) (items : list (string * V)) :
  StronglySorted key_lt items ->
  ~ In (fst item) (map fst items) ->
  StronglySorted key_lt (insert_item item items).
Proof.
  induction items as [|other rest IH]; intros Hsorted Hfresh;
    cbn [insert_item].
  - repeat constructor.
  - inversion Hsorted as [|? ? Hrest Hall]; subst.
    destruct (String.ltb (fst item) (fst other)) eqn:Hlt.
    + constructor; [exact Hsorted|].
      constructor; [exact Hlt|].
      eapply Forall_impl; [|exact Hall].
      intros x Hx. unfold key_lt in *. eapply string_ltb_trans; eassumption.
    + cbn [map In] in Hfresh.
      constructor.
      * apply IH; [exact Hrest | tauto].
      * apply Forall_forall. intros x Hx.
        apply in_insert_item in Hx. destruct Hx as [->|Hx].
        -- apply string_ltb_total; [exact Hlt|]. intros Heq. apply Hfresh.
           now left.
        -- now apply (proj1 (Forall_forall _ _) Hall).
Qed.

Lemma sorted_is_sorted (items : list (string * V)) :
  NoDup (map fst items) -> StronglySorted key_lt (sorted items).
Proof.
  unfold sorted. induction items as [|item items IH]; cbn [fold_right map];
    intros Hnd.
  - constructor.
  - inversion Hnd as [|? ? Hfresh Hnd']; subst.
    apply insert_item_sorted; [now apply IH|].
    intros Hin. apply Hfresh.
    apply in_map_iff in Hin. destruct Hin as (x & Hfst & Hx).
    apply (proj1 (in_sorted _ _)) in Hx.
    apply in_map_iff. now exists x.
Qed.

Lemma sorted_keys (items : list (string * V)) :
  StronglySorted key_lt items ->
  StronglySorted (fun a b => String.ltb a b = true) (map fst items).
Proof.
  induction 1 as [|item items Hrest IH Hall]; cbn [map].
  - constructor.
  - constructor; [exact IH|].
    apply Forall_map. eapply Forall_impl; [|exact Hall]. now intros x Hx.
Qed.

End SortedFacts.

Section TableFacts.
Context {F : Type} `{PyFloat F}.

Lemma grouped_item (results : list (BenchmarkResult F))
  (categories : list (string * list (BenchmarkResult F)))
  (cat : string) (members : list (BenchmarkResult F)) :
  grouped results categories ->
  In (cat, members) (sorted categories) ->
  members = filter (in_category cat) results /\ members <> [].
Proof.
  intros [Hnd Hget] Hin. apply (proj1 (in_sorted _ _)) in Hin.
  apply (dict_get_in _ _ _ Hnd) in Hin. rewrite Hget in Hin.
  destruct (filter (in_category cat) results); [discriminate|].
  injection Hin as <-. split; [reflexivity | discriminate].
Qed.

(** X14: the lines of the table come in strictly increasing order of their
    category, so that no category has two lines. *)
Theorem category_lines_are_sorted (results : list (BenchmarkResult F))
  (rows : list CategoryRow) :
  print_summary results = Ok rows ->
  StronglySorted (fun a b => String.ltb a b = true) (map row_category rows).
Proof.
  intros Hsummary.
  destruct (print_summary_total results) as (categories & [Hnd _] & Heq).
  rewrite Hsummary in Heq. injection Heq as ->.
  rewrite map_map. cbn [row_category expected_row].
  apply sorted_keys. now apply sorted_is_sorted.
Qed.

Lemma all_positive_filter (xs : list F) :
  Forall (fun v => py_gt v fzero = true) xs ->
  filter (fun v => py_gt v fzero) xs = xs.
Proof.
  induction 1 as [|x xs Hx Hxs IH]; cbn [filter]; [reflexivity|].
  now rewrite Hx, IH.
Qed.

(** X15: for a category in which every benchmark has a positive minimum on
    both sides, the ratio of the line is the mean of all candidate minimums
    over the mean of all reference minimums (0 when that reference mean is
    not positive). *)
Theorem category_ratio_when_all_measured (results : list (BenchmarkResult F))
  (rows : list CategoryRow) (row : CategoryRow) :
  print_summary results = Ok rows ->
  In row rows ->
  (forall r, In r results -> category r = row_category row ->
             py_gt (min_or_zero (fcx_times r)) fzero = true /\
             py_gt (min_or_zero (c_times r)) fzero = true) ->
  row_ratio row
  = mean_of_minimums_ratio
      (filter (in_category (row_category row)) results).
Proof.
  intros Hsummary Hrow Hpos.
  destruct (print_summary_total results) as (categories & Hgrouped & Heq).
  rewrite Hsummary in Heq. injection Heq as ->.
  apply in_map_iff in Hrow. destruct Hrow as ([cat members] & <- & Hin).
  cbn [fst snd] in *.
  change (row_category (expected_row cat members)) with cat in *.
  destruct (grouped_item _ _ _ _ Hgrouped Hin) as [-> Hne].
  set (members := filter (in_category cat) results) in *.
  assert (Hall : forall times,
             (forall r, In r members ->
                        py_gt (min_or_zero (times r)) fzero = true) ->
             mean_or_zero (positive_minimums times members)
             = fmean (map (fun r => min_or_zero (times r)) members)).
  { intros times Htimes. unfold positive_minimums.
    rewrite all_positive_filter.
    - destruct members; [contradiction | reflexivity].
    - apply Forall_map. apply Forall_forall. exact Htimes. }
  assert (Hmem : forall r, In r members ->
                           In r results /\ category r = cat).
  { intros r Hr. apply filter_In in Hr. destruct Hr as [Hr Hcat].
    split; [exact Hr|]. now apply String.eqb_eq in Hcat. }
  unfold expected_row, mean_of_minimums_ratio. cbn [row_ratio].
  rewrite (Hall fcx_times), (Hall c_times); [reflexivity| |].
  - intros r Hr. destruct (Hmem r Hr) as [Hin' Hcat].
    now apply (Hpos r Hin' Hcat).
  - intros r Hr. destruct (Hmem r Hr) as [Hin' Hcat].
    now apply (Hpos r Hin' Hcat).
Qed.

End TableFacts.

(* ================================================================== *)
(** * More properties of run_binary *)

Section RunBinaryFacts.
Context {F : Type} `{PyFloat F}.
Variable env : Env.
Variable self : BenchmarkRunner.

(** X16: [run_binary] gives up early: without the binary it returns [None] and
    starts no process; when the warm-up execution raises, it returns [None]
    without reading the clock or attempting the timed execution. *)
Theorem run_binary_gives_up_early (binary : Path) (w : World) :
  (path_exists env w binary = false ->
   run_binary (F:=F) env self binary w = (Ok None, w ++ [EvStat binary])) /\
  (forall f,
     path_exists env w binary = true ->
     run_outcome env (w ++ [EvStat binary]) [path_str binary] 60 = Failed f ->
     run_binary (F:=F) env self binary w
     = (Ok None, w ++ [EvStat binary; EvSpawn [path_str binary] 60])).
Proof.
  destruct (run_binary_cases (F:=F) env self binary w)
    as (t & w' & Hrun & Hcase).
  rewrite Hrun. split.
  - intros Hmissing. destruct Hcase; first [reflexivity | congruence].
  - intros f Hex Hwarm. destruct Hcase; first [reflexivity | congruence].
Qed.

End RunBinaryFacts.

(* ================================================================== *)
(** * The minimum in exact arithmetic *)

Lemma exact_fold_min_lower_bound (rest : list Qc) (x : Qc) :
  let m := fold_left (fun best item => if py_lt item best then item else best)
             rest x in
  (m <= x)%Qc /\ Forall (fun t => (m <= t)%Qc) rest.
Proof.
  revert x. induction rest as [|y rest IH]; intros x; cbn [fold_left].
  - split; [apply Qcle_refl | constructor].
  - destruct (py_lt y x) eqn:Hlt.
    + apply exact_lt_iff in Hlt. destruct (IH y) as [Hy Hrest].
      split; [|constructor; assumption].
      eapply Qcle_trans; [exact Hy|]. now apply Qclt_le_weak.
    + assert (Hxy : (x <= y)%Qc).
      { destruct (Qclt_le_dec y x) as [Hyx|Hxy]; [|exact Hxy].
        apply exact_lt_iff in Hyx. congruence. }
      destruct (IH x) as [Hx Hrest].
      split; [exact Hx|]. constructor; [|exact Hrest].
      eapply Qcle_trans; eassumption.
Qed.

(** X17: in exact arithmetic, the minimum of a side with samples is below every
    sample of that side. *)
Theorem exact_minimum_is_lower_bound (self : BenchmarkResult Qc) :
  (fcx_times self <> [] ->
   exists m, fcx_min self = Ok m /\
             Forall (fun t => (m <= t)%Qc) (fcx_times self)) /\
  (c_times self <> [] ->
   exists m, c_min self = Ok m /\
             Forall (fun t => (m <= t)%Qc) (c_times self)).
Proof.
  split; intros Hne.
  - eexists. split; [apply fcx_min_value|].
    destruct (fcx_times self) as [|x rest]; [contradiction|].
    cbn [min_or_zero].
    destruct (exact_fold_min_lower_bound rest x) as [Hx Hrest].
    now constructor.
  - eexists. split; [apply c_min_value|].
    destruct (c_times self) as [|x rest]; [contradiction|].
    cbn [min_or_zero].
    destruct (exact_fold_min_lower_bound rest x) as [Hx Hrest].
    now constructor.
Qed.

(* ================================================================== *)
(** * These properties on concrete scenarios *)

Lemma all_fine_monotone : monotone_clock Scenario.all_fine.
Proof.
  intros w later. cbn [clock_ns Scenario.all_fine].
  rewrite length_app. lia.
Qed.

Lemma unknown_opt_level_raises_witness :
  dict_get OPT_CONFIGS "O4" = None /\
  run_benchmark (F:=float) Scenario.all_fine Scenario.one_iteration
    "07_loop_sum" "loop" "O4" [] = (Raise (KeyError "O4"), []) /\
  run_all (F:=float) Scenario.all_fine Scenario.one_iteration "O4"
    (Some "loop") [] = (Raise (KeyError "O4"), []).
Proof.
  split; [reflexivity|].
  apply (unknown_opt_level_raises (F:=float) Scenario.all_fine
           Scenario.one_iteration "07_loop_sum" "loop" "O4" (Some "loop") []).
  reflexivity.
Defined.

Lemma run_benchmark_result_invariant_witness :
  exists r w',
    run_benchmark (F:=float) Scenario.no_candidate Scenario.one_iteration
      "07_loop_sum" "loop" "O2" [] = (Ok r, w') /\
    entry_of r = ("07_loop_sum", "loop") /\
    opt_level r = "O2" /\
    samples_only_if_built r /\
    (List.length (fcx_times r)
     <= Z.to_nat (iterations Scenario.one_iteration + 1))%nat /\
    (List.length (c_times r)
     <= Z.to_nat (iterations Scenario.one_iteration + 1))%nat.
Proof.
  eexists _, _. split; [vm_compute; reflexivity|].
  eapply (run_benchmark_result_invariant (F:=float) Scenario.no_candidate
            Scenario.one_iteration "07_loop_sum" "loop" "O2" []).
  vm_compute. reflexivity.
Defined.

Lemma unbuilt_side_reports_zero_witness :
  exists r w',
    run_benchmark (F:=float) Scenario.no_candidate Scenario.one_iteration
      "07_loop_sum" "loop" "O2" [] = (Ok r, w') /\
    fcx_compiled r = false /\
    fcx_min r = Ok fzero /\ fcx_avg r = Ok fzero /\ ratio r = Ok fzero.
Proof.
  eexists _, _. split; [vm_compute; reflexivity|].
  split; [reflexivity|].
  apply (proj1 (unbuilt_side_reports_zero (F:=float) Scenario.no_candidate
                  Scenario.one_iteration "07_loop_sum" "loop" "O2" [] _ _
                  ltac:(vm_compute; reflexivity))).
  reflexivity.
Defined.

Lemma samples_are_elapsed_times_witness :
  monotone_clock Scenario.all_fine /\
  exists r w',
    run_benchmark (F:=float) Scenario.all_fine Scenario.one_iteration
      "07_loop_sum" "loop" "O2" [] = (Ok r, w') /\
    Forall elapsed_ms (fcx_times r) /\ Forall elapsed_ms (c_times r).
Proof.
  split; [exact all_fine_monotone|].
  eexists _, _. split; [vm_compute; reflexivity|].
  eapply (samples_are_elapsed_times (F:=float) Scenario.all_fine
            Scenario.one_iteration "07_loop_sum" "loop" "O2" []).
  - exact all_fine_monotone.
  - vm_compute. reflexivity.
Defined.

Lemma unbuilt_binary_never_executed_witness :
  exists r w',
    run_benchmark (F:=float) Scenario.no_candidate Scenario.one_iteration
      "07_loop_sum" "loop" "O2" [] = (Ok r, w') /\
    fcx_compiled r = false /\
    exists log,
      w' = [] ++ log /\
      Forall (fun ev =>
                ~ spawns [path_str (fcx_bin_of Scenario.one_iteration
                                      "07_loop_sum" "O2")] ev) log.
Proof.
  eexists _, _. split; [vm_compute; reflexivity|].
  split; [reflexivity|].
  destruct (unbuilt_binary_never_executed (F:=float) Scenario.no_candidate
              Scenario.one_iteration "07_loop_sum" "loop" "O2" [] _ _
              ltac:(vm_compute; reflexivity))
    as (log & Hlog & Hfcx & _).
  exists log. split; [exact Hlog|]. apply Hfcx. reflexivity.
Defined.

Lemma candidate_runs_precede_reference_runs_witness :
  exists res w' before after,
    run_benchmark (F:=float) Scenario.all_fine Scenario.one_iteration
      "07_loop_sum" "loop" "O2" [] = (res, w') /\
    w' = [] ++ before ++ after /\
    Forall (fun ev =>
              ~ spawns [path_str (c_bin_of Scenario.one_iteration
                                    "07_loop_sum" "O2")] ev) before /\
    Forall (fun ev =>
              ~ spawns [path_str (fcx_bin_of Scenario.one_iteration
                                    "07_loop_sum" "O2")] ev) after.
Proof.
  destruct (candidate_runs_precede_reference_runs (F:=float) Scenario.all_fine
              Scenario.one_iteration "07_loop_sum" "loop" "O2" [] _ _
              ltac:(vm_compute; reflexivity))
    as (before & after & Hlog & Hbefore & Hafter).
  eexists _, _, before, after. split; [vm_compute; reflexivity|].
  split; [exact Hlog|]. now split.
Defined.

Lemma run_benchmark_process_budget_witness :
  exists res w' log,
    run_benchmark (F:=float) Scenario.one_crash Scenario.one_iteration
      "07_loop_sum" "loop" "O2" [] = (res, w') /\
    w' = [] ++ log /\
    Forall bounded_spawn log /\
    (spawn_count log
     <= 2 + 4 * Z.to_nat (iterations Scenario.one_iteration + 2))%nat.
Proof.
  destruct (run_benchmark_process_budget (F:=float) Scenario.one_crash
              Scenario.one_iteration "07_loop_sum" "loop" "O2" [] _ _
              ltac:(vm_compute; reflexivity))
    as (log & Hlog & Hbounded & Hcount).
  eexists _, _, log. split; [vm_compute; reflexivity|].
  split; [exact Hlog|]. now split.
Defined.

Lemma run_all_results_follow_catalog_witness :
  exists results w',
    run_all (F:=float) Scenario.all_fine Scenario.one_iteration "O2"
      (Some "loop") [] = (Ok results, w') /\
    map entry_of results = filter (selected (Some "loop")) BENCHMARKS /\
    Forall (fun r => opt_level r = "O2" /\ samples_only_if_built r) results.
Proof.
  eexists _, _. split; [vm_compute; reflexivity|].
  eapply (run_all_results_follow_catalog (F:=float) Scenario.all_fine
            Scenario.one_iteration "O2" (Some "loop") []).
  vm_compute. reflexivity.
Defined.

Lemma run_all_process_budget_witness :
  exists res w' log,
    run_all (F:=float) Cases.always_timeout
      Scenario.one_iteration "O2" (Some "loop") [] = (res, w') /\
    w' = [] ++ log /\
    Forall bounded_spawn log /\
    (spawn_count log
     <= List.length (filter (selected (Some "loop")) BENCHMARKS)
        * (2 + 4 * Z.to_nat (iterations Scenario.one_iteration + 2)))%nat.
Proof.
  destruct (run_all_process_budget (F:=float) Cases.always_timeout
              Scenario.one_iteration "O2" (Some "loop") [] _ _
              ltac:(vm_compute; reflexivity))
    as (log & Hlog & Hbounded & Hcount).
  eexists _, _, log. split; [vm_compute; reflexivity|].
  split; [exact Hlog|]. now split.
Defined.

(** [-O0 -O3]: the level is [O0]. *)
Lemma main_level_is_configured_witness :
  O0 Cases.o0_o3_loop = true /\
  O3 Cases.o0_o3_loop = true /\
  main_opt_level Cases.o0_o3_loop = "O0".
Proof.
  split; [reflexivity|]. split; [reflexivity|].
  exact (proj1 (proj2 (main_level_is_configured (F:=float) Scenario.all_fine
                         Scenario.bench_dir Cases.o0_o3_loop []))
           eq_refl).
Defined.

Lemma minimum_is_a_sample_witness :
  exists m,
    fcx_min Scenario.one_to_ten = Ok m /\ In m (fcx_times Scenario.one_to_ten).
Proof.
  apply (proj1 (minimum_is_a_sample Scenario.one_to_ten)). discriminate.
Defined.

Lemma ratio_line_needs_both_sides_witness :
  samples_only_if_built Scenario.one_to_ten /\
  exists report,
    print_result Scenario.one_to_ten = Ok report /\
    report_ratio report <> None /\
    report_fcx report = MinOfRuns 1%float 1 /\
    report_c report = MinOfRuns 10%float 1.
Proof.
  assert (Hbuilt : samples_only_if_built Scenario.one_to_ten)
    by (split; discriminate).
  split; [exact Hbuilt|].
  destruct (ratio_line_needs_both_sides Scenario.one_to_ten)
    as (report & Hprint & Hshown).
  exists report. split; [exact Hprint|].
  assert (Hsome : report_ratio report <> None).
  { vm_compute in Hprint. injection Hprint as <-. discriminate. }
  split; [exact Hsome|].
  exact (proj2 (proj2 (Hshown Hsome)) Hbuilt).
Defined.

Lemma category_lines_are_sorted_witness :
  exists rows,
    print_summary Cases.all_measured = Ok rows /\
    StronglySorted (fun a b => String.ltb a b = true) (map row_category rows).
Proof.
  eexists. split; [vm_compute; reflexivity|].
  apply (category_lines_are_sorted Cases.all_measured).
  vm_compute. reflexivity.
Defined.

Lemma category_ratio_when_all_measured_witness :
  exists rows row,
    print_summary Cases.all_measured = Ok rows /\
    In row rows /\
    row_category row = "loop" /\
    row_ratio row
    = mean_of_minimums_ratio
        (filter (in_category (row_category row)) Cases.all_measured).
Proof.
  eexists _, _. split; [vm_compute; reflexivity|].
  split; [left; reflexivity|]. split; [reflexivity|].
  eapply (category_ratio_when_all_measured Cases.all_measured).
  - vm_compute. reflexivity.
  - left. reflexivity.
  - intros r [<-|[<-|[<-|[]]]] _; split; reflexivity.
Defined.

Lemma run_binary_gives_up_early_witness :
  run_binary (F:=float) Cases.nothing_there Scenario.one_iteration
    Scenario.loop_sum_bin []
  = (Ok None, [] ++ [EvStat Scenario.loop_sum_bin]) /\
  run_binary (F:=float) Cases.always_timeout Scenario.one_iteration
    Scenario.loop_sum_bin []
  = (Ok None,
     [] ++ [EvStat Scenario.loop_sum_bin;
            EvSpawn [path_str Scenario.loop_sum_bin] 60]).
Proof.
  split.
  - apply (proj1 (run_binary_gives_up_early (F:=float) Cases.nothing_there
                    Scenario.one_iteration Scenario.loop_sum_bin [])).
    reflexivity.
  - apply (proj2 (run_binary_gives_up_early (F:=float) Cases.always_timeout
                    Scenario.one_iteration Scenario.loop_sum_bin [])
             TimedOut); reflexivity.
Defined.

Lemma exact_minimum_is_lower_bound_witness :
  exists m,
    fcx_min Scenario.exact_result = Ok m /\
    Forall (fun t => (m <= t)%Qc) (fcx_times Scenario.exact_result).
Proof.
  apply (proj1 (exact_minimum_is_lower_bound Scenario.exact_result)).
  discriminate.
Defined.
